(** * Gem sharing report: a model of [user_shared_gems]

    Source: [gem sharing/python/utils.py].  The routine builds a Drive
    service that impersonates an owner, pages through the file-listing
    endpoint, turns every file into one row of a table and normalises the
    three timestamp columns.

    Modelling choices.
    - The JSON objects of the listing are records whose fields are
      [option]s: [None] is an absent key, as [dict.get] reports it.  Field
      types follow the Drive v3 schema (strings, lists of objects).
    - The Drive service and the credential exchange are external: they are
      parameters of the development, acting on an abstract [World].
    - The routine runs in a state-and-error monad.  The state pairs the
      world with a ghost [history] of the exchanges with the listing
      endpoint, so that statements can speak about the requests issued.
    - [while True] is unbounded: the loop takes a fuel argument, and
      running out of it is the distinguished outcome [OutOfFuel].
    - pandas is external as well.  What the routine asks of it
      ([DataFrame] from a list of dicts, column read and write, [fillna],
      [strftime]) is written out.  The parse of line 64 is a pair of
      parameters: [parse_error] says whether the right-hand side of the
      line raises on a column, [to_datetime] gives the parsed column when
      it does not, [NaT] where the parse coerces.  What a statement
      assumes of the parse, it says as a hypothesis.
    - A missing value in a frame is one cell, [NA]: whether pandas keeps
      Python's [None] or stores [NA] depends on its version, and nothing
      the routine does tells them apart.
    - The [print] of line 18 is a call to a collaborator like the others. *)

From Stdlib Require Import String Ascii List Bool Arith NArith Lia DecimalString.
From stdpp Require Import base option list relations strings.
Import ListNotations.

Local Open Scope string_scope.
Local Open Scope list_scope.

(** ** Python values met by the routine *)

(** [not x] for a value that is a string or [None]: both [None] and the
    empty string are falsy. *)
Definition truthy (x : option string) : bool :=
  match x with
  | Some s => negb (String.eqb s "")
  | None => false
  end.

(** [a or b] on such values. *)
Definition py_or (a b : option string) : option string :=
  if truthy a then a else b.

(** [a or "literal"]: the right operand is a string, so is the result. *)
Definition py_or_else (a : option string) (b : string) : string :=
  match a with
  | Some s => if truthy a then s else b
  | None => b
  end.

(** [x == 'literal'] where [x] comes from [dict.get]. *)
Definition py_eq (x : option string) (lit : string) : bool :=
  match x with
  | Some s => String.eqb s lit
  | None => false
  end.

(** [x in [...]] for a list of string literals. *)
Definition py_in (x : option string) (lits : list string) : bool :=
  existsb (py_eq x) lits.

(** [sep.join(items)]. *)
Definition join (sep : string) (items : list string) : string :=
  String.concat sep items.

(** ** The listing's objects *)

Record User := {
  user_emailAddress : option string
}.

Record Permission := {
  perm_emailAddress : option string;
  perm_displayName : option string;
  perm_domain : option string;
  perm_role : option string
}.

Record File := {
  file_id : option string;
  file_name : option string;
  file_owners : option (list User);
  file_createdTime : option string;
  file_modifiedTime : option string;
  file_webViewLink : option string;
  file_viewedByMeTime : option string;
  file_permissions : option (list Permission)
}.

Record Response := {
  resp_files : option (list File);
  resp_nextPageToken : option string
}.

(** The keyword arguments of [service.files().list(...)]. *)
Record Request := {
  q : string;
  pageSize : nat;
  supportsAllDrives : bool;
  includeItemsFromAllDrives : bool;
  fields : string;
  pageToken : option string
}.

(** ** Outcomes *)

(** [IndexError] is the one exception the routine's own code can raise (on
    typed input); everything the collaborators raise is [External]. *)
Inductive exn :=
| IndexError
| External (what : string).

Inductive outcome (A : Type) :=
| Return (a : A)
| Raise (e : exn)
| OutOfFuel.
Arguments Return {A} a.
Arguments Raise {A} e.
Arguments OutOfFuel {A}.

(** What a collaborator hands back: an exception or a value. *)
Definition thrown {A} (r : exn + A) : outcome A :=
  match r with
  | inl e => Raise e
  | inr a => Return a
  end.

(** One exchange with the listing endpoint: what was asked, and what
    [execute()] gave back or raised. *)
Definition Exchange : Type := Request * (exn + Response).

(** ** pandas *)

(** A value of a row or a cell of a frame: a text, or a missing value
    ([None] in a row; [None], [NA] or [NaT] in a frame). *)
Inductive cell :=
| NA
| Str (s : string).

(** A Python dict with string keys, in insertion order. *)
Definition dict : Type := list (string * cell).

Fixpoint dict_get (k : string) (d : dict) : option cell :=
  match d with
  | [] => None
  | (k', v) :: d' => if String.eqb k k' then Some v else dict_get k d'
  end.

Record DataFrame := {
  columns : list string;
  records : list (list cell)
}.

(** Labels in order of first appearance. *)
Fixpoint first_seen (seen ks : list string) : list string :=
  match ks with
  | [] => []
  | k :: ks' =>
      if existsb (String.eqb k) seen then first_seen seen ks'
      else k :: first_seen (seen ++ [k]) ks'
  end.

(** [pd.DataFrame(data)] for a list of dicts: the columns are the keys in
    order of first appearance, a key a dict lacks gives a missing value. *)
Definition pd_DataFrame (data : list dict) : DataFrame :=
  let cols := first_seen [] (flat_map (map fst) data) in
  {| columns := cols;
     records := map (fun d => map (fun c => default NA (dict_get c d)) cols) data |}.

(** [df.empty]: some axis has length zero. *)
Definition df_empty (df : DataFrame) : bool :=
  match columns df, records df with
  | [], _ | _, [] => true
  | _, _ => false
  end.

Fixpoint col_index (col : string) (cols : list string) : option nat :=
  match cols with
  | [] => None
  | c :: cols' =>
      if String.eqb col c then Some 0 else S <$> col_index col cols'
  end.

(** [df[col]] read as a Series; the routine only reads columns that exist. *)
Definition df_getitem (col : string) (df : DataFrame) : list cell :=
  match col_index col (columns df) with
  | Some j => map (fun r => nth j r NA) (records df)
  | None => []
  end.

(** [df[col] = series]: values are aligned on the row index, a row the
    series has no value for gets a missing value; a new label appends a
    column. *)
Definition df_setitem (col : string) (series : list cell) (df : DataFrame) : DataFrame :=
  match col_index col (columns df) with
  | Some j =>
      {| columns := columns df;
         records := imap (fun i r => <[j := nth i series NA]> r) (records df) |}
  | None =>
      {| columns := columns df ++ [col];
         records := imap (fun i r => r ++ [nth i series NA]) (records df) |}
  end.

(** [series.fillna(value)]: missing entries are replaced. *)
Definition fillna (value : string) (series : list cell) : list cell :=
  map (fun c => match c with Str s => Str s | _ => Str value end) series.

(** The range of Python's [datetime], through which pandas formats a
    timestamp: years 1 to 9999, months 1 to 12, days 1 to 31. *)
Definition datetime_range (y m d : N) : bool :=
  (1 <=? y)%N && (y <=? 9999)%N && (1 <=? m)%N && (m <=? 12)%N
  && (1 <=? d)%N && (d <=? 31)%N.

(** The calendar part of a timestamp that [strftime] can format; the
    format the routine uses reads nothing else.  (On a timestamp outside
    the range [strftime] raises, which [parse_error] accounts for.) *)
Record Timestamp := {
  year : N;
  month : N;
  day : N;
  in_range : datetime_range year month day = true
}.

Definition digit (n : N) : ascii := ascii_of_N (48 + n mod 10).

Definition decimal (n : N) : string := NilZero.string_of_uint (N.to_uint n).

(** Decimal, zero-padded to two places. *)
Definition pad2 (n : N) : string :=
  if (n <? 100)%N then String (digit (n / 10)) (String (digit n) "")
  else decimal n.

(** [%Y]: the year in decimal, as the C library of Linux prints it,
    without padding: four digits from the year 1000 on, fewer below. *)
Definition year_text (n : N) : string :=
  if (n <? 1000)%N then decimal n
  else if (n <? 10000)%N then
    String (digit (n / 1000)) (String (digit (n / 100))
      (String (digit (n / 10)) (String (digit n) "")))
  else decimal n.

(** [strftime] for the directives [%m], [%d], [%Y]; other characters are
    copied. *)
Fixpoint strftime (fmt : string) (t : Timestamp) : string :=
  match fmt with
  | EmptyString => ""
  | String "%" (String "m" rest) => pad2 (month t) ++ strftime rest t
  | String "%" (String "d" rest) => pad2 (day t) ++ strftime rest t
  | String "%" (String "Y" rest) => year_text (year t) ++ strftime rest t
  | String c rest => String c (strftime rest t)
  end.

(** [series.dt.strftime(fmt)]: [NaT] gives a missing value. *)
Definition dt_strftime (fmt : string) (series : list (option Timestamp)) : list cell :=
  map (fun o => match o with Some t => Str (strftime fmt t) | None => NA end) series.

Definition is_digit (c : ascii) : bool :=
  let n := N_of_ascii c in N.leb 48 n && N.leb n 57.

(** Two digits, a slash, two digits, a slash, four digits. *)
Definition is_MMDDYYYY (s : string) : bool :=
  match list_ascii_of_string s with
  | [m1; m2; s1; d1; d2; s2; y1; y2; y3; y4] =>
      forallb is_digit [m1; m2; d1; d2; y1; y2; y3; y4]
      && Ascii.eqb s1 "/" && Ascii.eqb s2 "/"
  | _ => false
  end.

(** ** The routine *)

Definition SCOPES : list string :=
  ["https://www.googleapis.com/auth/drive.readonly"].

Definition GEM_MIME_TYPE : string := "application/vnd.google-gemini.gem".

(** Default of the parameter [service_account_file]. *)
Definition service_account_key : string := "service_account_key.json".

(** Line 14, an f-string. *)
Definition query (owner : string) : string :=
  "mimeType = '" ++ GEM_MIME_TYPE ++ "' and '" ++ owner
  ++ "' in owners and trashed = false".

(** Line 15. *)
Definition fields_mask : string :=
  "nextPageToken, files(id, name, owners, createdTime, modifiedTime, webViewLink, viewedByMeTime, permissions)".

Definition list_request (owner : string) (page_token : option string) : Request :=
  {| q := query owner;
     pageSize := 100;
     supportsAllDrives := true;
     includeItemsFromAllDrives := true;
     fields := fields_mask;
     pageToken := page_token |}.

(** Line 40: Email -> Display Name -> Domain -> Unknown. *)
Definition identity (perm : Permission) : string :=
  py_or_else
    (py_or (py_or (perm_emailAddress perm) (perm_displayName perm))
       (perm_domain perm))
    "Unknown".

(** Body of the loop of lines 38-48, on the pair of lists it appends to. *)
Definition classify (owner_email : string) (lists : list string * list string)
    (perm : Permission) : list string * list string :=
  let '(editors, viewers) := lists in
  let identity := identity perm in
  if String.eqb identity owner_email then lists
  else
    let role := perm_role perm in
    if py_eq role "writer" then (editors ++ [identity], viewers)
    else if py_in role ["reader"; "commenter"] then (editors, viewers ++ [identity])
    else lists.

Definition cell_of (x : option string) : cell :=
  match x with
  | Some s => Str s
  | None => NA
  end.

(** Lines 34-58: the row of one file.  [owners] present but empty makes
    the subscript [[0]] raise. *)
Definition make_row (file : File) : exn + dict :=
  match default [ {| user_emailAddress := None |} ] (file_owners file) with
  | [] => inl IndexError
  | first :: _ =>
      let owner_email := default "Unknown" (user_emailAddress first) in
      let '(editors, viewers) :=
        match file_permissions file with
        | Some permissions => fold_left (classify owner_email) permissions ([], [])
        | None => ([], [])
        end in
      inr
        [ ("File Name", cell_of (file_name file));
          ("URL", cell_of (file_webViewLink file));
          ("Owner", Str owner_email);
          ("Editor(s)", Str (join ", " editors));
          ("Viewer(s)", Str (join ", " viewers));
          ("Created", cell_of (file_createdTime file));
          ("Modified", cell_of (file_modifiedTime file));
          ("Opened by Me", Str (default "Never" (file_viewedByMeTime file))) ]
  end.

(** Lines 32-59: the loop over [all_files], appending to [data_rows]. *)
Fixpoint build_rows (all_files : list File) (data_rows : list dict) : exn + list dict :=
  match all_files with
  | [] => inr data_rows
  | file :: rest =>
      match make_row file with
      | inr row => build_rows rest (data_rows ++ [row])
      | inl e => inl e
      end
  end.

Definition time_cols : list string := ["Created"; "Modified"; "Opened by Me"].

Section Routine.

Context {World Credentials Service : Type}.

(** [Credentials.from_service_account_file(file, scopes=s).with_subject(u)] *)
Variable delegated_credentials :
  string -> list string -> string -> World -> (exn + Credentials) * World.

(** [build(name, version, credentials=creds)] *)
Variable build :
  string -> string -> Credentials -> World -> (exn + Service) * World.

(** [print(text)] *)
Variable print : string -> World -> (exn + unit) * World.

(** [service.files().list(...).execute()] *)
Variable execute_list :
  Service -> Request -> World -> (exn + Response) * World.

(** The exception [pd.to_datetime(series, errors='coerce').dt.strftime(fmt)]
    raises on a series, if it raises: a column that mixes UTC offsets
    makes the parse or the [.dt] accessor raise, a timestamp outside the
    range of Python's [datetime] makes [strftime] raise. *)
Variable parse_error : list cell -> option exn.

(** [pd.to_datetime(series, errors='coerce')] where the line does not
    raise; [None] stands for [NaT]. *)
Variable to_datetime : list cell -> list (option Timestamp).

Record Env := {
  world : World;
  history : list Exchange
}.

Definition M (A : Type) : Type := Env -> outcome A * Env.

Definition ret {A} (a : A) : M A := fun s => (Return a, s).

Definition bind {A B} (c : M A) (k : A -> M B) : M B := fun s =>
  match c s with
  | (Return a, s') => k a s'
  | (Raise e, s') => (Raise e, s')
  | (OutOfFuel, s') => (OutOfFuel, s')
  end.

Definition lift {A} (o : outcome A) : M A := fun s => (o, s).

(** A call to a collaborator other than the listing endpoint. *)
Definition extern {A} (f : World -> (exn + A) * World) : M A := fun s =>
  let '(r, w) := f (world s) in
  (thrown r, {| world := w; history := history s |}).

(** A call to the listing endpoint, recorded in the history. *)
Definition files_list (service : Service) (req : Request) : M Response := fun s =>
  let '(r, w) := execute_list service req (world s) in
  (thrown r, {| world := w; history := history s ++ [(req, r)] |}).

Notation "'let*' x := c 'in' k" := (bind c (fun x => k))
  (at level 10, x name, c at level 100, k at level 200).

(** Lines 19-31. *)
Fixpoint paginate (fuel : nat) (service : Service) (owner : string)
    (all_files : list File) (page_token : option string) : M (list File) :=
  match fuel with
  | 0 => lift OutOfFuel
  | S fuel' =>
      let* results := files_list service (list_request owner page_token) in
      let all_files := all_files ++ default [] (resp_files results) in
      let page_token := resp_nextPageToken results in
      if negb (truthy page_token) then ret all_files
      else paginate fuel' service owner all_files page_token
  end.

(** The two assignments of lines 64-65, where the first does not raise. *)
Definition rewrite_col (df : DataFrame) (col : string) : DataFrame :=
  let df :=
    df_setitem col (dt_strftime "%m/%d/%Y" (to_datetime (df_getitem col df))) df in
  df_setitem col (fillna "" (df_getitem col df)) df.

(** Lines 64-65 for one column. *)
Definition normalise_col (df : DataFrame) (col : string) : exn + DataFrame :=
  match parse_error (df_getitem col df) with
  | Some e => inl e
  | None => inr (rewrite_col df col)
  end.

(** Lines 63-65: the loop over the columns. *)
Fixpoint normalise (cols : list string) (df : DataFrame) : exn + DataFrame :=
  match cols with
  | [] => inr df
  | col :: rest =>
      match normalise_col df col with
      | inr df' => normalise rest df'
      | inl e => inl e
      end
  end.

(** Lines 60-66. *)
Definition report (data_rows : list dict) : exn + DataFrame :=
  let df := pd_DataFrame data_rows in
  if negb (df_empty df) then normalise time_cols df else inr df.

(** Line 18, an f-string. *)
Definition querying (owner : string) : string :=
  "Querying Gems for: " ++ owner ++ "...".

Definition user_shared_gems (fuel : nat) (owner : string)
    (service_account_file : string) : M DataFrame :=
  let* creds := extern (delegated_credentials service_account_file SCOPES owner) in
  let* service := extern (build "drive" "v3" creds) in
  let* _ := extern (print (querying owner)) in
  let* all_files := paginate fuel service owner [] None in
  let* data_rows := lift (thrown (build_rows all_files [])) in
  lift (thrown (report data_rows)).

End Routine.

Arguments world {World} _.
Arguments history {World} _.

(** ** Vocabulary of the statements *)

(** The state a run starts from: nothing asked yet. *)
Definition start {World} (w : World) : Env :=
  {| world := w; history := [] |}.

(** The files one exchange delivered, and all files of a history, page
    after page. *)
Definition page_files (x : Exchange) : list File :=
  match snd x with
  | inr results => default [] (resp_files results)
  | inl _ => []
  end.

Definition files_received (h : list Exchange) : list File :=
  flat_map page_files h.

(** [session owner page_token all_files h r]: the exchanges [h] are those
    of a run of the paging loop entered with [page_token] and [all_files],
    and [r] is how the loop ended. *)
Inductive session (owner : string) :
    option string -> list File -> list Exchange -> outcome (list File) -> Prop :=
| session_cut page_token all_files :
    session owner page_token all_files [] OutOfFuel
| session_raise page_token all_files e :
    session owner page_token all_files
      [(list_request owner page_token, inl e)] (Raise e)
| session_last page_token all_files results :
    truthy (resp_nextPageToken results) = false ->
    session owner page_token all_files
      [(list_request owner page_token, inr results)]
      (Return (all_files ++ default [] (resp_files results)))
| session_more page_token all_files results h r :
    truthy (resp_nextPageToken results) = true ->
    session owner (resp_nextPageToken results)
      (all_files ++ default [] (resp_files results)) h r ->
    session owner page_token all_files
      ((list_request owner page_token, inr results) :: h) r.

(** The variables of the loop together with the state it runs in. *)
Record LoopState {World : Type} := {
  all_files : list File;
  page_token : option string;
  env : @Env World
}.
Arguments LoopState World : clear implicits.

(** One turn of the loop that goes round again: the endpoint answers and
    the answer carries a token that is truthy. *)
Inductive turns {World Service : Type}
    (execute_list : Service -> Request -> World -> (exn + Response) * World)
    (service : Service) (owner : string) :
    LoopState World -> LoopState World -> Prop :=
| turns_again files token s results w :
    execute_list service (list_request owner token) (world s) = (inr results, w) ->
    truthy (resp_nextPageToken results) = true ->
    turns execute_list service owner
      {| all_files := files; page_token := token; env := s |}
      {| all_files := files ++ default [] (resp_files results);
         page_token := resp_nextPageToken results;
         env := {| world := w;
                   history := history s ++ [(list_request owner token, inr results)] |} |}.

(** What the routine does with the outcome of the paging loop. *)
Definition conclude (parse_error : list cell -> option exn)
    (to_datetime : list cell -> list (option Timestamp))
    (paged : outcome (list File)) : outcome DataFrame :=
  match paged with
  | Return files =>
      match build_rows files [] with
      | inr data_rows => thrown (report parse_error to_datetime data_rows)
      | inl e => Raise e
      end
  | Raise e => Raise e
  | OutOfFuel => OutOfFuel
  end.

(** The frame of lines 60-66 when no column makes the parse raise. *)
Definition formatted (to_datetime : list cell -> list (option Timestamp))
    (data_rows : list dict) : DataFrame :=
  let df := pd_DataFrame data_rows in
  if negb (df_empty df) then fold_left (rewrite_col to_datetime) time_cols df
  else df.

Definition report_columns : list string :=
  ["File Name"; "URL"; "Owner"; "Editor(s)"; "Viewer(s)";
   "Created"; "Modified"; "Opened by Me"].

(** The cell of row [i] under the label [col]. *)
Definition df_cell (df : DataFrame) (i : nat) (col : string) : option cell :=
  match col_index col (columns df), records df !! i with
  | Some j, Some r => r !! j
  | _, _ => None
  end.

(** The text a parsed column gives row [i]: the formatted date, or the
    empty string where there is no timestamp. *)
Definition stamp (parsed : list (option Timestamp)) (i : nat) : string :=
  match parsed !! i with
  | Some (Some t) => strftime "%m/%d/%Y" t
  | _ => ""
  end.

(** The three restrictions the query string joins with [and]. *)
Definition mime_clause : string :=
  "mimeType = 'application/vnd.google-gemini.gem'".

Definition owner_clause (owner : string) : string :=
  "'" ++ owner ++ "' in owners".

Definition trashed_clause : string := "trashed = false".

(** The entries that go to the editor list and to the viewer list of a
    file whose owner cell reads [o], in the words of the report. *)
Definition is_editor (o : string) (perm : Permission) : Prop :=
  identity perm <> o /\ perm_role perm = Some "writer".

Definition is_viewer (o : string) (perm : Permission) : Prop :=
  identity perm <> o
  /\ (perm_role perm = Some "reader" \/ perm_role perm = Some "commenter").

#[global] Instance is_editor_dec o perm : Decision (is_editor o perm).
Proof. unfold is_editor. apply _. Defined.

#[global] Instance is_viewer_dec o perm : Decision (is_viewer o perm).
Proof. unfold is_viewer. apply _. Defined.

Definition editors_of (o : string) (permissions : list Permission) : list string :=
  identity <$> filter (is_editor o) permissions.

Definition viewers_of (o : string) (permissions : list Permission) : list string :=
  identity <$> filter (is_viewer o) permissions.

(** The row the report holds for a file whose owner cell reads [o],
    before the timestamp columns are rewritten. *)
Definition row_of (file : File) (o : string) : dict :=
  let permissions := default [] (file_permissions file) in
  [ ("File Name", cell_of (file_name file));
    ("URL", cell_of (file_webViewLink file));
    ("Owner", Str o);
    ("Editor(s)", Str (join ", " (editors_of o permissions)));
    ("Viewer(s)", Str (join ", " (viewers_of o permissions)));
    ("Created", cell_of (file_createdTime file));
    ("Modified", cell_of (file_modifiedTime file));
    ("Opened by Me", Str (default "Never" (file_viewedByMeTime file))) ].

(** The record the report holds for a row: the row's cells, with the
    three timestamp cells replaced by the given texts. *)
Definition finished (d : dict) (created modified opened : string) : list cell :=
  <[7 := Str opened]> (<[6 := Str modified]> (<[5 := Str created]> (map snd d))).

(** The owner cell of a file: the e-mail address of the first owner, or
    [Unknown] where the file has no [owners] or the owner no address.
    There is none when [owners] is present and empty. *)
Definition owner_email (file : File) : option string :=
  match file_owners file with
  | None => Some "Unknown"
  | Some [] => None
  | Some (first :: _) => Some (default "Unknown" (user_emailAddress first))
  end.

(** A file whose [owners], when present, is not the empty list. *)
Definition has_owner (file : File) : Prop :=
  file_owners file <> Some [].

(** The file fields the mask asks for. *)
Definition file_fields : list string :=
  ["id"; "name"; "owners"; "createdTime"; "modifiedTime"; "webViewLink";
   "viewedByMeTime"; "permissions"].

(** Credentials and service are obtained and the line of line 18 is
    printed, leaving the world [w']. *)
Definition connects {World Credentials Service : Type}
    (delegated_credentials :
       string -> list string -> string -> World -> (exn + Credentials) * World)
    (build : string -> string -> Credentials -> World -> (exn + Service) * World)
    (print : string -> World -> (exn + unit) * World)
    (key owner : string) (w : World) (service : Service) (w' : World) : Prop :=
  exists creds w1 w2,
    delegated_credentials key SCOPES owner w = (inr creds, w1)
    /\ build "drive" "v3" creds w1 = (inr service, w2)
    /\ print (querying owner) w2 = (inr tt, w').

(** From the world [w], the endpoint answers [n] requests with a truthy
    token each, and the one after them with a response whose token is not
    truthy; [files] are the files of these pages, in order. *)
Definition paging_ends {World Service : Type}
    (execute_list : Service -> Request -> World -> (exn + Response) * World)
    (service : Service) (owner : string) (w : World) (n : nat)
    (files : list File) : Prop :=
  exists st results w',
    nsteps (turns execute_list service owner) n
      {| all_files := []; page_token := None; env := start w |} st
    /\ execute_list service (list_request owner (page_token st)) (world (env st))
       = (inr results, w')
    /\ truthy (resp_nextPageToken results) = false
    /\ files = all_files st ++ default [] (resp_files results).

(** Every exchange of a history is an answer, none a failure. *)
Definition all_answered (h : list Exchange) : Prop :=
  Forall (fun x => exists results, snd x = inr results) h.

(** The exit rule read to the letter: the response after which no further
    request is made is the one that has no [nextPageToken]. *)
Definition stops_when_token_absent (h : list Exchange) : Prop :=
  forall i req results, h !! i = Some (req, inr results) ->
    (S i = length h <-> resp_nextPageToken results = None).

(** The normal form of the timestamp columns read to the letter: every
    cell under the three labels is the empty text or a date written
    MM/DD/YYYY. *)
Definition dates_or_blank (df : DataFrame) : Prop :=
  forall col i c, col ∈ time_cols -> df_cell df i col = Some c ->
    c = Str "" \/ exists s, c = Str s /\ is_MMDDYYYY s = true.

(** ** A scripted Drive, for concrete runs *)

Module Demo.

Definition credentials (_ : string) (_ : list string) (_ : string) (w : nat) :
    (exn + unit) * nat := (inr tt, w).

Definition build (_ _ : string) (_ : unit) (w : nat) : (exn + unit) * nat :=
  (inr tt, w).

(** The world is the number of calls made so far; call [w] is answered
    with entry [w] of the script. *)
Definition scripted (script : list (exn + Response)) (_ : unit) (_ : Request)
    (w : nat) : (exn + Response) * nat :=
  (nth w script (inl (External "no more answers")), S w).

Definition print (_ : string) (w : nat) : (exn + unit) * nat := (inr tt, w).

Definition date (y m d : N) (ok : datetime_range y m d = true) : Timestamp :=
  {| year := y; month := m; day := d; in_range := ok |}.

(** A parse that knows a few timestamps and coerces everything else. *)
Definition parse (c : cell) : option Timestamp :=
  match c with
  | Str s =>
      if String.eqb s "2024-01-05T10:00:00.000Z"
      then Some (date 2024 1 5 eq_refl)
      else if String.eqb s "2024-02-29T08:30:00.000Z"
      then Some (date 2024 2 29 eq_refl)
      else if String.eqb s "2024-03-01T09:00:00.000+01:00"
      then Some (date 2024 3 1 eq_refl)
      else if String.eqb s "0999-01-05T00:00:00.000Z"
      then Some (date 999 1 5 eq_refl)
      else None
  | _ => None
  end.

Definition to_datetime (series : list cell) : list (option Timestamp) :=
  map parse series.

Definition ends_with (suffix s : string) : bool :=
  Nat.leb (String.length suffix) (String.length s)
  && String.eqb
       (substring (String.length s - String.length suffix)
          (String.length suffix) s)
       suffix.

Definition cell_ends_with (suffix : string) (c : cell) : bool :=
  match c with
  | Str s => ends_with suffix s
  | NA => false
  end.

(** The parse raises on a column that holds a time in UTC and a time at
    one hour's offset. *)
Definition parse_error (series : list cell) : option exn :=
  if existsb (cell_ends_with "Z") series
     && existsb (cell_ends_with "+01:00") series
  then Some (External "ValueError: Mixed timezones detected")
  else None.

Definition owner : string := "ada@example.org".

Definition perm (email name domain role : option string) : Permission :=
  {| perm_emailAddress := email; perm_displayName := name;
     perm_domain := domain; perm_role := role |}.

Definition gem_a : File :=
  {| file_id := Some "a1";
     file_name := Some "Gem A";
     file_owners := Some [ {| user_emailAddress := Some owner |} ];
     file_createdTime := Some "2024-01-05T10:00:00.000Z";
     file_modifiedTime := Some "2024-02-29T08:30:00.000Z";
     file_webViewLink := Some "https://gemini.example/a1";
     file_viewedByMeTime := None;
     file_permissions := Some
       [ perm (Some owner) (Some "Ada") None (Some "owner");
         perm (Some "bob@example.org") None None (Some "writer");
         perm None (Some "") (Some "example.org") (Some "reader");
         perm None (Some "Carol") None (Some "commenter");
         perm (Some "dan@example.org") None None (Some "fileOrganizer");
         perm None None None (Some "reader") ] |}.

Definition gem_b : File :=
  {| file_id := Some "b2";
     file_name := Some "Gem B";
     file_owners := None;
     file_createdTime := None;
     file_modifiedTime := Some "not a date";
     file_webViewLink := None;
     file_viewedByMeTime := Some "2024-01-05T10:00:00.000Z";
     file_permissions := None |}.

Definition page (files : list File) (token : option string) : exn + Response :=
  inr {| resp_files := Some files; resp_nextPageToken := token |}.

(** Two pages, then nothing more. *)
Definition two_pages : list (exn + Response) :=
  [ page [gem_a] (Some "t1"); page [gem_b] None ].

(** A page, then a failure of the call. *)
Definition failing : list (exn + Response) :=
  [ page [gem_a] (Some "t1"); inl (External "HttpError 500") ].

(** A first page whose token is the empty string, with more to come. *)
Definition empty_token : list (exn + Response) :=
  [ page [gem_a] (Some ""); page [gem_b] None ].

Definition run (script : list (exn + Response)) (fuel : nat) :
    outcome DataFrame * @Env nat :=
  user_shared_gems credentials build print (scripted script)
    parse_error to_datetime fuel owner service_account_key (start 0).

(** The frame a run returned (the empty frame if it returned none), and
    the state it ended in. *)
Definition frame (script : list (exn + Response)) (fuel : nat) : DataFrame :=
  match fst (run script fuel) with
  | Return df => df
  | _ => {| columns := []; records := [] |}
  end.

Definition final (script : list (exn + Response)) (fuel : nat) : @Env nat :=
  snd (run script fuel).

(** A file whose [owners] is present and empty. *)
Definition gem_c : File :=
  {| file_id := Some "c3";
     file_name := Some "Gem C";
     file_owners := Some [];
     file_createdTime := None;
     file_modifiedTime := None;
     file_webViewLink := None;
     file_viewedByMeTime := None;
     file_permissions := Some [ perm (Some "eve@example.org") None None (Some "writer") ] |}.

(** Two pages, the second with the ownerless file. *)
Definition no_owner : list (exn + Response) :=
  [ page [gem_a] (Some "t1"); page [gem_c] None ].

(** One answer, with neither files nor token. *)
Definition nothing : list (exn + Response) :=
  [ inr {| resp_files := None; resp_nextPageToken := None |} ].

(** An endpoint that hands out a token with every answer. *)
Definition endless (_ : unit) (_ : Request) (w : nat) : (exn + Response) * nat :=
  (page [gem_a] (Some "again"), S w).

(** The row of the first file, as the routine builds it. *)
Definition row_a : dict :=
  match make_row gem_a with
  | inr row => row
  | inl _ => []
  end.

(** A credential exchange that is refused. *)
Definition no_credentials (_ : string) (_ : list string) (_ : string) (w : nat) :
    (exn + unit) * nat :=
  (inl (External "RefreshError"), w).

(** A standard output that is closed. *)
Definition no_stdout (_ : string) (w : nat) : (exn + unit) * nat :=
  (inl (External "BrokenPipeError"), w).

(** A file created in the year 999. *)
Definition gem_old : File :=
  {| file_id := Some "o4";
     file_name := Some "Gem Old";
     file_owners := Some [ {| user_emailAddress := Some owner |} ];
     file_createdTime := Some "0999-01-05T00:00:00.000Z";
     file_modifiedTime := Some "2024-01-05T10:00:00.000Z";
     file_webViewLink := None;
     file_viewedByMeTime := None;
     file_permissions := None |}.

Definition old_page : list (exn + Response) := [ page [gem_old] None ].

(** A file whose creation time is given at an offset. *)
Definition gem_m : File :=
  {| file_id := Some "m5";
     file_name := Some "Gem M";
     file_owners := Some [ {| user_emailAddress := Some owner |} ];
     file_createdTime := Some "2024-03-01T09:00:00.000+01:00";
     file_modifiedTime := None;
     file_webViewLink := None;
     file_viewedByMeTime := None;
     file_permissions := None |}.

Definition mixed : list (exn + Response) := [ page [gem_a; gem_m] None ].

(** A file in the bin, and a drive that holds it next to [gem_a]. *)
Definition gem_z : File :=
  {| file_id := Some "z9";
     file_name := Some "Gem Z";
     file_owners := Some [ {| user_emailAddress := Some owner |} ];
     file_createdTime := None;
     file_modifiedTime := None;
     file_webViewLink := None;
     file_viewedByMeTime := None;
     file_permissions := None |}.

Definition store : list File := [gem_a; gem_z].

Definition is_trashed (file : File) : bool :=
  String.eqb (default "" (file_id file)) "z9".

(** An endpoint that reads the query: asked with the restriction
    [trashed = false] at the end of a conjunction it leaves the files in
    the bin out, asked without it it lists them too. *)
Definition filtering (_ : unit) (req : Request) (w : nat) :
    (exn + Response) * nat :=
  (page (if ends_with " and trashed = false" (q req)
         then List.filter (fun file => negb (is_trashed file)) store
         else store) None,
   S w).

Definition run_on
    (endpoint : unit -> Request -> nat -> (exn + Response) * nat)
    (fuel : nat) : outcome DataFrame * @Env nat :=
  user_shared_gems credentials build print endpoint parse_error to_datetime
    fuel owner service_account_key (start 0).

(** The request of the routine, and the same without the restriction. *)
Definition asked : Request := list_request owner None.

Definition asked_unrestricted : Request :=
  {| q := "mimeType = 'application/vnd.google-gemini.gem' and '"
          ++ owner ++ "' in owners";
     pageSize := 100;
     supportsAllDrives := true;
     includeItemsFromAllDrives := true;
     fields := fields_mask;
     pageToken := None |}.

End Demo.

(** The raw columns of the three timestamp labels, one cell per file, as
    the rows hold them before any parsing. *)
Definition created_column (files : list File) : list cell :=
  map (fun file => cell_of (file_createdTime file)) files.

Definition modified_column (files : list File) : list cell :=
  map (fun file => cell_of (file_modifiedTime file)) files.

Definition opened_column (files : list File) : list cell :=
  map (fun file => Str (default "Never" (file_viewedByMeTime file))) files.

(** * Facts *)

(** ** Python values *)

Lemma truthy_true x : truthy x = true <-> exists s, x = Some s /\ s <> "".
Proof.
  destruct x as [s|]; simpl.
  - rewrite negb_true_iff. split.
    + intros H. exists s. split; [done|]. by apply String.eqb_neq.
    + intros (s' & [= <-] & Hne). by apply String.eqb_neq.
  - split; [done|]. by intros (s & ? & _).
Qed.

Lemma truthy_false x : truthy x = false <-> x = None \/ x = Some "".
Proof.
  destruct x as [s|]; simpl.
  - rewrite negb_false_iff, String.eqb_eq. split.
    + intros ->. by right.
    + by intros [|[= ->]].
  - split; [by left|done].
Qed.

Lemma py_or_l a b : truthy a = true -> py_or a b = a.
Proof. unfold py_or. by intros ->. Qed.

Lemma py_or_r a b : truthy a = false -> py_or a b = b.
Proof. unfold py_or. by intros ->. Qed.

Lemma py_or_else_l s b : s <> "" -> py_or_else (Some s) b = s.
Proof.
  intros Hne. unfold py_or_else.
  by rewrite (proj2 (truthy_true (Some s))) by eauto.
Qed.

Lemma py_or_else_r a b : truthy a = false -> py_or_else a b = b.
Proof. unfold py_or_else. intros ->. by destruct a. Qed.

Lemma append_assoc (a b c : string) :
  ((a ++ b) ++ c = a ++ (b ++ c))%string.
Proof.
  induction a as [|x a IH]; [reflexivity|].
  change (String x ((a ++ b) ++ c) = String x (a ++ (b ++ c)))%string.
  by rewrite IH.
Qed.

(** The query string is its three clauses joined by [and]. *)
Lemma query_clauses owner :
  query owner = join " and " [mime_clause; owner_clause owner; trashed_clause].
Proof.
  unfold join, mime_clause, owner_clause, trashed_clause. simpl.
  rewrite !append_assoc. reflexivity.
Qed.

(** ** The paging loop *)

Section Paging.

Context {World Service : Type}.
Variable execute_list : Service -> Request -> World -> (exn + Response) * World.
Variable service : Service.
Variable owner : string.

Local Notation "'paginate'" := (paginate execute_list).
Local Notation "'turns'" := (turns execute_list service owner).

(** One more turn of the loop, seen from the call that opens it. *)
Lemma paginate_step fuel files token (s : Env) :
  paginate (S fuel) service owner files token s =
  match execute_list service (list_request owner token) (world s) with
  | (inl e, w) =>
      (Raise e,
       {| world := w; history := history s ++ [(list_request owner token, inl e)] |})
  | (inr results, w) =>
      let s' :=
        {| world := w;
           history := history s ++ [(list_request owner token, inr results)] |} in
      let files' := files ++ default [] (resp_files results) in
      if truthy (resp_nextPageToken results)
      then paginate fuel service owner files' (resp_nextPageToken results) s'
      else (Return files', s')
  end.
Proof.
  simpl. unfold bind, files_list.
  destruct (execute_list _ _ _) as [[e|results] w]; simpl; [done|].
  by destruct (truthy _).
Qed.

(** Whatever the fuel, the exchanges a run adds to the history form a
    session that ends the way the run does. *)
Lemma paginate_session fuel : forall files token (s : Env) r s',
  paginate fuel service owner files token s = (r, s') ->
  exists h, history s' = history s ++ h /\ session owner token files h r.
Proof.
  induction fuel as [|fuel IH]; intros files token s r s' Hrun.
  - injection Hrun as <- <-. exists []. split; [by rewrite app_nil_r|constructor].
  - rewrite paginate_step in Hrun.
    destruct (execute_list _ _ _) as [[e|results] w].
    + injection Hrun as <- <-. eexists. split; [done|constructor].
    + simpl in Hrun. destruct (truthy _) eqn:Htok.
      * apply IH in Hrun as (h & Hh & Hsess). simpl in Hh.
        exists ((list_request owner token, inr results) :: h). split.
        -- by rewrite Hh, <- app_assoc.
        -- by constructor.
      * injection Hrun as <- <-. eexists. split; [done|by constructor].
Qed.

(** A turn that goes round again costs one unit of fuel. *)
Lemma paginate_turn fuel st st' :
  turns st st' ->
  paginate (S fuel) service owner (all_files st) (page_token st) (env st) =
  paginate fuel service owner (all_files st') (page_token st') (env st').
Proof.
  intros [files token s results w Hcall Htok].
  rewrite paginate_step. simpl. by rewrite Hcall, Htok.
Qed.

Lemma paginate_turns n : forall fuel st st',
  nsteps turns n st st' ->
  paginate (n + fuel) service owner (all_files st) (page_token st) (env st) =
  paginate fuel service owner (all_files st') (page_token st') (env st').
Proof.
  induction n as [|n IH]; intros fuel st st' Hn.
  - by inversion Hn.
  - inversion Hn as [|? ? mid ? Hturn Hrest]; subst.
    change (S n + fuel) with (S (n + fuel)).
    rewrite (paginate_turn _ _ _ Hturn). by apply IH.
Qed.

Lemma turns_history_length n st st' :
  nsteps turns n st st' ->
  length (history (env st')) = length (history (env st)) + n.
Proof.
  induction 1 as [|n a b c Hturn Hn IH]; [lia|].
  rewrite IH. destruct Hturn. simpl. rewrite length_app. simpl. lia.
Qed.

(** After [n] turns, a response without a truthy token ends the loop. *)
Lemma paginate_returns n fuel st st' results w :
  nsteps turns n st st' ->
  execute_list service (list_request owner (page_token st')) (world (env st'))
    = (inr results, w) ->
  truthy (resp_nextPageToken results) = false ->
  n < fuel ->
  paginate fuel service owner (all_files st) (page_token st) (env st) =
  (Return (all_files st' ++ default [] (resp_files results)),
   {| world := w;
      history := history (env st')
                 ++ [(list_request owner (page_token st'), inr results)] |}).
Proof.
  intros Hn Hcall Htok Hlt.
  replace fuel with (n + S (fuel - S n)) by lia.
  rewrite (paginate_turns _ _ _ _ Hn), paginate_step.
  by rewrite Hcall, Htok.
Qed.

End Paging.

(** ** Sessions *)

Section Sessions.

Variable owner : string.

Lemma session_files token files h fs :
  session owner token files h (Return fs) -> fs = files ++ files_received h.
Proof.
  intros H. remember (Return fs) as r eqn:Hr.
  induction H as [| |token files results Htok|token files results h r Htok H IH].
  - done.
  - done.
  - injection Hr as <-. unfold files_received. simpl. by rewrite app_nil_r.
  - rewrite (IH Hr). unfold files_received. simpl. by rewrite <- app_assoc.
Qed.

(** The first request carries the token the loop was entered with. *)
Lemma session_first token files h r x :
  session owner token files h r -> h !! 0 = Some x ->
  fst x = list_request owner token.
Proof. intros H Hx. destruct H; simpl in Hx; by simplify_eq. Qed.

(** A request that is not the first follows a response with a truthy
    token, and carries that token. *)
Lemma session_next token files h r : session owner token files h r ->
  forall i x y, h !! i = Some x -> h !! S i = Some y ->
  exists results,
    snd x = inr results /\ truthy (resp_nextPageToken results) = true
    /\ fst y = list_request owner (resp_nextPageToken results).
Proof.
  induction 1 as [| | |token files results h r Htok H IH]; intros i x y Hx Hy;
    try (destruct i; simpl in *; done).
  destruct i as [|i]; simpl in Hx, Hy.
  - injection Hx as <-. exists results. repeat split; [done|].
    by eapply session_first.
  - by eapply IH.
Qed.

(** A call that raised is the last one, and the loop ended with what it
    raised. *)
Lemma session_raised token files h r : session owner token files h r ->
  forall i req e, h !! i = Some (req, inl e) ->
  r = Raise e /\ S i = length h.
Proof.
  induction 1 as [| | |token files results h r Htok H IH]; intros i req e' Hi.
  - done.
  - destruct i; simpl in Hi; [by simplify_eq|done].
  - destruct i; simpl in Hi; [by simplify_eq|done].
  - destruct i as [|i]; simpl in Hi; [done|].
    destruct (IH _ _ _ Hi) as [-> Hlen]. split; [done|]. simpl. by rewrite Hlen.
Qed.

(** In a session that ended by itself, the response that is the last one
    is the one whose token is not truthy. *)
Lemma session_exit token files h r : session owner token files h r ->
  r <> OutOfFuel ->
  forall i req results, h !! i = Some (req, inr results) ->
  (S i = length h <-> truthy (resp_nextPageToken results) = false).
Proof.
  induction 1 as [| | |token files results h r Htok H IH]; intros Hr i req res Hi.
  - done.
  - destruct i; simpl in Hi; [by simplify_eq|done].
  - destruct i; simpl in Hi; [|done]. simplify_eq. simpl. done.
  - destruct i as [|i]; simpl in Hi.
    + simplify_eq. simpl. split; [|congruence].
      intros Hlen. destruct H; simpl in Hlen; done.
    + rewrite <- (IH Hr _ _ _ Hi). simpl. lia.
Qed.

(** A session that returned had every request answered. *)
Lemma session_answered token files h fs :
  session owner token files h (Return fs) -> all_answered h.
Proof.
  intros Hsess. apply Forall_lookup. intros i [req [e|results]] Hi.
  - by destruct (session_raised _ _ _ _ Hsess _ _ _ Hi).
  - by eexists.
Qed.

End Sessions.

(** ** Rows *)

Lemma py_eq_true x lit : py_eq x lit = true <-> x = Some lit.
Proof.
  destruct x as [s|]; simpl; [|done].
  rewrite String.eqb_eq. split; [by intros ->|by intros [= ->]].
Qed.

Lemma py_in_two x a b :
  py_in x [a; b] = true <-> x = Some a \/ x = Some b.
Proof.
  unfold py_in. simpl. rewrite orb_false_r, orb_true_iff.
  by rewrite !py_eq_true.
Qed.

(** One pass of the loop body appends the identity to at most one list. *)
Lemma classify_spec o editors viewers perm :
  classify o (editors, viewers) perm =
  (if decide (is_editor o perm) then editors ++ [identity perm] else editors,
   if decide (is_viewer o perm) then viewers ++ [identity perm] else viewers).
Proof.
  unfold classify, is_editor, is_viewer.
  destruct (String.eqb_spec (identity perm) o) as [Heq|Hne].
  { rewrite !decide_False; [done| |]; by intros []. }
  destruct (py_eq (perm_role perm) "writer") eqn:Hw.
  { apply py_eq_true in Hw.
    rewrite decide_True by done.
    rewrite decide_False; [done|]. intros [_ [H|H]]; congruence. }
  assert (perm_role perm <> Some "writer") as Hnw.
  { intros H. apply py_eq_true in H. congruence. }
  rewrite (decide_False (P := _ /\ perm_role perm = _)) by (by intros []).
  destruct (py_in (perm_role perm) ["reader"; "commenter"]) eqn:Hv.
  - apply py_in_two in Hv. by rewrite decide_True.
  - rewrite decide_False; [done|]. intros [_ H].
    apply py_in_two in H. congruence.
Qed.

Lemma classify_fold o permissions : forall editors viewers,
  fold_left (classify o) permissions (editors, viewers) =
  (editors ++ editors_of o permissions, viewers ++ viewers_of o permissions).
Proof.
  unfold editors_of, viewers_of.
  induction permissions as [|perm permissions IH]; intros editors viewers;
    cbn [fold_left].
  - by rewrite !app_nil_r.
  - rewrite classify_spec, IH, !filter_cons.
    do 2 case_decide; simpl; by rewrite <- ?app_assoc.
Qed.

Lemma make_row_spec file :
  make_row file =
  match owner_email file with
  | Some o => inr (row_of file o)
  | None => inl IndexError
  end.
Proof.
  unfold make_row, owner_email, row_of.
  destruct (file_owners file) as [[|first rest]|]; simpl; [done| |];
    destruct (file_permissions file) as [permissions|]; simpl;
    by rewrite ?classify_fold.
Qed.

Lemma has_owner_email file : has_owner file <-> is_Some (owner_email file).
Proof.
  unfold has_owner, owner_email.
  destruct (file_owners file) as [[|first rest]|]; split; intros H;
    try done; try (by eexists); by destruct H.
Qed.

(** The rows are appended in the order of the files, one for each. *)
Lemma build_rows_inr files : forall data_rows rows,
  build_rows files data_rows = inr rows ->
  exists new, rows = data_rows ++ new
    /\ Forall2 (fun file row => exists o,
                  owner_email file = Some o /\ row = row_of file o) files new.
Proof.
  induction files as [|file files IH]; intros data_rows rows Hrows; simpl in Hrows.
  - injection Hrows as <-. exists []. by rewrite app_nil_r.
  - rewrite make_row_spec in Hrows.
    destruct (owner_email file) as [o|] eqn:Ho; [|done].
    apply IH in Hrows as (new & -> & Hall).
    exists (row_of file o :: new). rewrite <- app_assoc. split; [done|].
    constructor; [by exists o|done].
Qed.

Lemma build_rows_total files : forall data_rows,
  Forall has_owner files -> exists rows, build_rows files data_rows = inr rows.
Proof.
  induction files as [|file files IH]; intros data_rows Hall; simpl; [eauto|].
  inversion Hall as [|? ? Hfile Hrest]; subst.
  rewrite make_row_spec. apply has_owner_email in Hfile as [o ->]. by apply IH.
Qed.

(** ** Frames *)

Lemma lookup_map {A B} (f : A -> B) (l : list A) i :
  map f l !! i = f <$> l !! i.
Proof. exact (list_lookup_fmap f l i). Qed.

Lemma first_seen_known (data : list dict) :
  Forall (fun d => map fst d = report_columns) data ->
  first_seen report_columns (flat_map (map fst) data) = [].
Proof.
  induction 1 as [|d data Hd _ IH]; [done|].
  simpl. rewrite Hd. exact IH.
Qed.

Lemma first_seen_columns (data : list dict) :
  data <> [] -> Forall (fun d => map fst d = report_columns) data ->
  first_seen [] (flat_map (map fst) data) = report_columns.
Proof.
  intros Hne Hall. destruct Hall as [|d data Hd Hall]; [done|].
  simpl. rewrite Hd.
  change (first_seen [] (report_columns ++ flat_map (map fst) data))
    with (report_columns ++ first_seen report_columns (flat_map (map fst) data)).
  by rewrite first_seen_known, app_nil_r.
Qed.

Lemma cells_in_order (d : dict) :
  map fst d = report_columns ->
  map (fun c => default NA (dict_get c d)) report_columns = map snd d.
Proof.
  intros Hd.
  unfold report_columns in Hd.
  do 8 (destruct d as [|[? ?] d]; [discriminate Hd|]; injection Hd as -> Hd).
  destruct d; [reflexivity|discriminate Hd].
Qed.

Lemma pd_DataFrame_uniform (data : list dict) :
  data <> [] -> Forall (fun d => map fst d = report_columns) data ->
  pd_DataFrame data =
  {| columns := report_columns; records := map (map snd) data |}.
Proof.
  intros Hne Hall. unfold pd_DataFrame.
  rewrite (first_seen_columns _ Hne Hall). f_equal.
  induction Hall as [|d data Hd Hall IH]; [done|].
  cbn [map]. rewrite (cells_in_order _ Hd). f_equal.
  destruct data; [done|]. by apply IH.
Qed.

Section Normalise.

Variable to_datetime : list cell -> list (option Timestamp).

Lemma df_setitem_known col j series df :
  col_index col (columns df) = Some j ->
  df_setitem col series df =
  {| columns := columns df;
     records := imap (fun i r => <[j := nth i series NA]> r) (records df) |}.
Proof. intros Hj. unfold df_setitem. by rewrite Hj. Qed.

(** Formatting and then filling a parsed column leaves, in row [i], the
    text [stamp] describes. *)
Lemma filled_stamp parsed i :
  match default NA (dt_strftime "%m/%d/%Y" parsed !! i) with
  | Str s => Str s
  | _ => Str ""
  end = Str (stamp parsed i).
Proof.
  unfold dt_strftime, stamp. rewrite lookup_map.
  by destruct (parsed !! i) as [[t|]|].
Qed.

Lemma rewrite_col_lookup df col j :
  col_index col (columns df) = Some j ->
  Forall (fun r => j < length r) (records df) ->
  columns (rewrite_col to_datetime df col) = columns df
  /\ forall i,
       records (rewrite_col to_datetime df col) !! i =
       (fun r => <[j := Str (stamp (to_datetime (df_getitem col df)) i)]> r)
         <$> records df !! i.
Proof.
  intros Hj Hlen. unfold rewrite_col.
  set (parsed := to_datetime (df_getitem col df)).
  rewrite (df_setitem_known col j _ df Hj).
  set (df1 := {| columns := columns df; records := _ |}).
  rewrite (df_setitem_known col j _ df1 Hj). simpl. split; [done|].
  intros i. rewrite !list_lookup_imap.
  destruct (records df !! i) as [r|] eqn:Hr; simpl; [|done].
  rewrite list_insert_insert_eq. do 2 f_equal.
  unfold df_getitem. simpl. rewrite Hj.
  rewrite nth_lookup. unfold fillna. rewrite !lookup_map, list_lookup_imap, Hr.
  simpl. rewrite !nth_lookup, list_lookup_insert_eq.
  - apply filled_stamp.
  - rewrite Forall_forall in Hlen. apply Hlen.
    eapply list_elem_of_lookup_2. exact Hr.
Qed.

Lemma df_getitem_lookup df col j i :
  col_index col (columns df) = Some j ->
  df_getitem col df !! i = (fun r => nth j r NA) <$> records df !! i.
Proof. intros Hj. unfold df_getitem. rewrite Hj. apply lookup_map. Qed.

Lemma dict_width (d : dict) :
  map fst d = report_columns -> length (map snd d) = 8.
Proof.
  intros Hd. rewrite length_map, <- (length_map fst), Hd. reflexivity.
Qed.

(** The report of a non-empty list of rows that all carry the report's
    keys: each record is its row, the timestamp cells rewritten from the
    parse of the column as it stood. *)
Lemma formatted_lookup (data : list dict) :
  data <> [] -> Forall (fun d => map fst d = report_columns) data ->
  columns (formatted to_datetime data) = report_columns
  /\ exists c5 c6 c7 : list cell,
       (forall i,
          records (formatted to_datetime data) !! i =
          (fun d => finished d (stamp (to_datetime c5) i)
                      (stamp (to_datetime c6) i) (stamp (to_datetime c7) i))
            <$> data !! i)
       /\ forall i d, data !! i = Some d ->
            c5 !! i = (map snd d) !! 5 /\ c6 !! i = (map snd d) !! 6
            /\ c7 !! i = (map snd d) !! 7.
Proof.
  intros Hne Hall. unfold formatted.
  rewrite (pd_DataFrame_uniform _ Hne Hall).
  set (df0 := {| columns := report_columns; records := map (map snd) data |}).
  assert (df_empty df0 = false) as -> by (by destruct data).
  unfold time_cols. cbn [negb fold_left].
  assert (Forall (fun r => 8 <= length r) (records df0)) as Hw0.
  { apply Forall_forall. intros r [d [-> Hd]]%list_elem_of_fmap.
    rewrite Forall_forall in Hall. by rewrite dict_width by auto. }
  destruct (rewrite_col_lookup df0 "Created" 5) as [Hc1 Hr1];
    [done|by eapply Forall_impl; [exact Hw0|]; simpl; lia|].
  set (df1 := rewrite_col to_datetime df0 "Created") in *.
  assert (Forall (fun r => 8 <= length r) (records df1)) as Hw1.
  { apply Forall_lookup. intros i r Hr. rewrite Hr1 in Hr.
    destruct (records df0 !! i) as [r0|] eqn:Hr0; [|done]. injection Hr as <-.
    rewrite length_insert. by eapply (Forall_lookup_1 _ _ _ _ Hw0). }
  destruct (rewrite_col_lookup df1 "Modified" 6) as [Hc2 Hr2];
    [by rewrite Hc1|by eapply Forall_impl; [exact Hw1|]; simpl; lia|].
  set (df2 := rewrite_col to_datetime df1 "Modified") in *.
  assert (Forall (fun r => 8 <= length r) (records df2)) as Hw2.
  { apply Forall_lookup. intros i r Hr. rewrite Hr2 in Hr.
    destruct (records df1 !! i) as [r1|] eqn:Hr1'; [|done]. injection Hr as <-.
    rewrite length_insert. by eapply (Forall_lookup_1 _ _ _ _ Hw1). }
  destruct (rewrite_col_lookup df2 "Opened by Me" 7) as [Hc3 Hr3];
    [by rewrite Hc2, Hc1|by eapply Forall_impl; [exact Hw2|]; simpl; lia|].
  split; [by rewrite Hc3, Hc2, Hc1|].
  exists (df_getitem "Created" df0), (df_getitem "Modified" df1),
    (df_getitem "Opened by Me" df2).
  assert (forall i, records df0 !! i = map snd <$> data !! i) as Hr0.
  { intros i. apply lookup_map. }
  split.
  - intros i. rewrite Hr3, Hr2, Hr1, Hr0. by destruct (data !! i).
  - intros i d Hd.
    assert (8 <= length (map snd d)) as Hw.
    { rewrite Forall_forall in Hall. rewrite dict_width; [done|].
      apply Hall. by eapply list_elem_of_lookup_2. }
    assert (forall j, j < 8 -> Some (default NA (map snd d !! j)) = map snd d !! j)
      as Hcell.
    { intros j Hj. destruct (map snd d !! j) eqn:Hnone; [done|].
      apply lookup_ge_None in Hnone. lia. }
    rewrite (df_getitem_lookup df0 "Created" 5) by done.
    rewrite (df_getitem_lookup df1 "Modified" 6) by (by rewrite Hc1).
    rewrite (df_getitem_lookup df2 "Opened by Me" 7) by (by rewrite Hc2, Hc1).
    rewrite Hr2, Hr1, Hr0, Hd. cbn [fmap option_fmap option_map].
    rewrite !nth_lookup, !list_lookup_insert_ne by done.
    repeat split; apply Hcell; lia.
Qed.

End Normalise.

(** ** Columns, one at a time *)

Section Columns.

Variable to_datetime : list cell -> list (option Timestamp).

Lemma rewrite_col_records df col j :
  col_index col (columns df) = Some j ->
  Forall (fun r => j < length r) (records df) ->
  records (rewrite_col to_datetime df col) =
  imap (fun i r => <[j := Str (stamp (to_datetime (df_getitem col df)) i)]> r)
    (records df).
Proof.
  intros Hj Hlen. apply list_eq. intros i.
  destruct (rewrite_col_lookup to_datetime df col j Hj Hlen) as [_ ->].
  by rewrite list_lookup_imap.
Qed.

(** Rewriting one column leaves the reading of any other as it was. *)
Lemma df_getitem_other df df' col j j' (f : nat -> cell) :
  columns df' = columns df ->
  records df' = imap (fun i r => <[j := f i]> r) (records df) ->
  col_index col (columns df) = Some j' ->
  j' <> j ->
  df_getitem col df' = df_getitem col df.
Proof.
  intros Hcols Hrecs Hj' Hne. apply list_eq. intros i.
  rewrite (df_getitem_lookup df' col j') by (by rewrite Hcols).
  rewrite (df_getitem_lookup df col j') by done.
  rewrite Hrecs, list_lookup_imap.
  destruct (records df !! i) as [r|]; simpl; [|done].
  by rewrite !nth_lookup, list_lookup_insert_ne.
Qed.

Lemma rewrite_col_width df col j n :
  col_index col (columns df) = Some j ->
  j < n ->
  Forall (fun r => n <= length r) (records df) ->
  Forall (fun r => n <= length r) (records (rewrite_col to_datetime df col)).
Proof.
  intros Hj Hlt Hw.
  rewrite (rewrite_col_records df col j Hj)
    by (eapply Forall_impl; [exact Hw|]; simpl; lia).
  apply Forall_lookup. intros i r. rewrite list_lookup_imap.
  destruct (records df !! i) as [r0|] eqn:Hr0; [|done]. intros [= <-].
  rewrite length_insert. by eapply (Forall_lookup_1 _ _ _ _ Hw).
Qed.


End Columns.

Lemma raw_columns (files : list File) (rows : list dict) :
  Forall2 (fun file row => exists o,
             owner_email file = Some o /\ row = row_of file o) files rows ->
  map (fun d => nth 5 (map snd d) NA) rows = created_column files
  /\ map (fun d => nth 6 (map snd d) NA) rows = modified_column files
  /\ map (fun d => nth 7 (map snd d) NA) rows = opened_column files.
Proof.
  unfold created_column, modified_column, opened_column.
  induction 1 as [|file row files rows (o & _ & ->) _ (IH5 & IH6 & IH7)]; [done|].
  cbn [map]. rewrite IH5, IH6, IH7. done.
Qed.

(** ** The parse, where it raises and where it does not *)

Section Parse.

Variable parse_error : list cell -> option exn.
Variable to_datetime : list cell -> list (option Timestamp).

Lemma normalise_inr cols : forall df df',
  normalise parse_error to_datetime cols df = inr df' ->
  df' = fold_left (rewrite_col to_datetime) cols df.
Proof.
  induction cols as [|col cols IH]; intros df df' Hdf; simpl in Hdf.
  - by injection Hdf.
  - unfold normalise_col in Hdf.
    destruct (parse_error _); [done|]. by apply IH.
Qed.

(** A frame the report step gives is the frame with the columns
    rewritten. *)
Lemma report_inr data df :
  report parse_error to_datetime data = inr df -> df = formatted to_datetime data.
Proof.
  unfold report, formatted. destruct (negb _); [apply normalise_inr|].
  by intros [= <-].
Qed.

(** What each of the three parses is handed: the raw column, whatever
    was done to the columns before it. *)
Lemma stage_columns (data : list dict) :
  data <> [] -> Forall (fun d => map fst d = report_columns) data ->
  let raw j := map (fun d => nth j (map snd d) NA) data in
  let df0 := pd_DataFrame data in
  let df1 := rewrite_col to_datetime df0 "Created" in
  let df2 := rewrite_col to_datetime df1 "Modified" in
  df_empty df0 = false
  /\ df_getitem "Created" df0 = raw 5
  /\ df_getitem "Modified" df1 = raw 6
  /\ df_getitem "Opened by Me" df2 = raw 7.
Proof.
  intros Hne Hall raw.
  rewrite (pd_DataFrame_uniform _ Hne Hall).
  set (df0 := {| columns := report_columns; records := map (map snd) data |}).
  intros df0' df1 df2. subst df0'.
  assert (Forall (fun r => 8 <= length r) (records df0)) as Hw0.
  { apply Forall_forall. intros r [d [-> Hd]]%list_elem_of_fmap.
    rewrite Forall_forall in Hall. by rewrite dict_width by auto. }
  assert (forall df j, Forall (fun r => 8 <= length r) (records df) ->
            j < 8 -> Forall (fun r => j < length r) (records df)) as Hlt.
  { intros df j Hw Hj. eapply Forall_impl; [exact Hw|]. simpl. lia. }
  destruct (rewrite_col_lookup to_datetime df0 "Created" 5) as [Hc1 _];
    [done|apply Hlt; [done|lia]|].
  pose proof (rewrite_col_records to_datetime df0 "Created" 5 eq_refl
                (Hlt df0 5 Hw0 ltac:(lia))) as He1.
  pose proof (rewrite_col_width to_datetime df0 "Created" 5 8 eq_refl
                ltac:(lia) Hw0) as Hw1.
  fold df1 in Hc1, He1, Hw1.
  assert (col_index "Modified" (columns df1) = Some 6) as Hi2 by (by rewrite Hc1).
  destruct (rewrite_col_lookup to_datetime df1 "Modified" 6) as [Hc2 _];
    [done|apply Hlt; [done|lia]|].
  pose proof (rewrite_col_records to_datetime df1 "Modified" 6 Hi2
                (Hlt df1 6 Hw1 ltac:(lia))) as He2.
  fold df2 in Hc2, He2.
  assert (forall j col, col_index col report_columns = Some j ->
            df_getitem col df0 = raw j) as Hraw.
  { intros j col Hj. unfold df_getitem.
    change (columns df0) with report_columns. rewrite Hj.
    change (records df0) with (map (map snd) data).
    unfold raw. by rewrite map_map. }
  split; [by destruct data|]. split; [by apply (Hraw 5)|]. split.
  - rewrite (df_getitem_other df0 df1 "Modified" 5 6 _ Hc1 He1) by done.
    by apply (Hraw 6).
  - rewrite (df_getitem_other df1 df2 "Opened by Me" 6 7 _ Hc2 He2)
      by (by rewrite ?Hc1).
    rewrite (df_getitem_other df0 df1 "Opened by Me" 5 7 _ Hc1 He1) by done.
    by apply (Hraw 7).
Qed.

(** The report step on rows that carry the report's keys: it raises what
    the parse of the first raw column that fails raises, Created before
    Modified before Opened by Me, and gives the rewritten frame when
    none fails. *)
Lemma report_outcome (data : list dict) :
  data <> [] -> Forall (fun d => map fst d = report_columns) data ->
  let raw j := map (fun d => nth j (map snd d) NA) data in
  report parse_error to_datetime data =
  match parse_error (raw 5) with
  | Some e => inl e
  | None =>
      match parse_error (raw 6) with
      | Some e => inl e
      | None =>
          match parse_error (raw 7) with
          | Some e => inl e
          | None => inr (formatted to_datetime data)
          end
      end
  end.
Proof.
  intros Hne Hall raw.
  destruct (stage_columns data Hne Hall) as (Hempty & G5 & G6 & G7).
  subst raw. cbv beta.
  unfold report, formatted. rewrite Hempty. unfold time_cols.
  cbn [negb normalise fold_left]. unfold normalise_col at 1.
  rewrite G5. destruct (parse_error _); [done|].
  unfold normalise_col at 1.
  rewrite G6. destruct (parse_error _); [done|].
  unfold normalise_col at 1.
  rewrite G7. by destruct (parse_error _).
Qed.

End Parse.

(** ** Dates *)

Lemma is_digit_digit n : is_digit (digit n) = true.
Proof.
  unfold is_digit, digit.
  assert (n mod 10 < 10)%N as Hlt by (by apply N.mod_lt).
  generalize dependent (n mod 10)%N. intros k Hlt.
  rewrite N_ascii_embedding by lia.
  apply andb_true_iff. split; apply N.leb_le; lia.
Qed.

Lemma timestamp_bounds t :
  (1 <= year t <= 9999 /\ 1 <= month t <= 12 /\ 1 <= day t <= 31)%N.
Proof.
  pose proof (in_range t) as H. unfold datetime_range in H.
  repeat (apply andb_true_iff in H as [H ?]).
  repeat match goal with H : (_ <=? _)%N = true |- _ => apply N.leb_le in H end.
  lia.
Qed.

Lemma append_nil_r (a : string) : (a ++ "")%string = a.
Proof.
  induction a as [|x a IH]; [reflexivity|].
  change (String x (a ++ "") = String x a)%string. by rewrite IH.
Qed.

Lemma strftime_mdY_text t :
  strftime "%m/%d/%Y" t
  = (pad2 (month t) ++ "/" ++ pad2 (day t) ++ "/" ++ year_text (year t))%string.
Proof. cbn [strftime]. rewrite append_nil_r. reflexivity. Qed.

(** From the year 1000 on the formatted date has the ten places of
    MM/DD/YYYY. *)
Lemma strftime_mdY t :
  (1000 <= year t)%N -> is_MMDDYYYY (strftime "%m/%d/%Y" t) = true.
Proof.
  intros Hy. destruct (timestamp_bounds t) as (Hyear & Hm & Hd).
  cbn [strftime]. unfold pad2, year_text.
  assert ((month t <? 100)%N = true) as -> by (apply N.ltb_lt; lia).
  assert ((day t <? 100)%N = true) as -> by (apply N.ltb_lt; lia).
  assert ((year t <? 1000)%N = false) as -> by (apply N.ltb_ge; lia).
  assert ((year t <? 10000)%N = true) as -> by (apply N.ltb_lt; lia).
  unfold is_MMDDYYYY. simpl. by rewrite !is_digit_digit.
Qed.

(** ** The routine as a whole *)

Section Runs.

Context {World Credentials Service : Type}.
Variable delegated_credentials :
  string -> list string -> string -> World -> (exn + Credentials) * World.
Variable build :
  string -> string -> Credentials -> World -> (exn + Service) * World.
Variable print : string -> World -> (exn + unit) * World.
Variable execute_list : Service -> Request -> World -> (exn + Response) * World.
Variable parse_error : list cell -> option exn.
Variable to_datetime : list cell -> list (option Timestamp).

Local Notation "'routine'" :=
  (user_shared_gems delegated_credentials build print execute_list parse_error
     to_datetime).

(** A run either fails before the first request, or its history is a
    session of the paging loop and its outcome is what the routine makes
    of the loop's. *)
Lemma run_session fuel owner key w r s' :
  routine fuel owner key (start w) = (r, s') ->
  (history s' = [] /\ exists e, r = Raise e)
  \/ exists paged,
       session owner None [] (history s') paged
       /\ r = conclude parse_error to_datetime paged.
Proof.
  unfold user_shared_gems, bind, extern, lift, ret. simpl.
  destruct (delegated_credentials _ _ _ _) as [[e|creds] w1]; simpl.
  { intros [= <- <-]. left. eauto. }
  destruct (build _ _ _ _) as [[e|service] w2]; simpl.
  { intros [= <- <-]. left. eauto. }
  destruct (print _ _) as [[e|[]] w3]; simpl.
  { intros [= <- <-]. left. eauto. }
  destruct (paginate _ _ _ _ _ _ _) as [paged s1] eqn:Hpaged.
  apply paginate_session in Hpaged as (h & Hh & Hsess). simpl in Hh. subst h.
  intros Hrun. right. exists paged.
  destruct paged as [files|e|]; simpl.
  - destruct (build_rows files []) as [e|rows]; [by injection Hrun as <- <-|].
    simpl in Hrun. by injection Hrun as <- <-.
  - by injection Hrun as <- <-.
  - by injection Hrun as <- <-.
Qed.

(** With credentials and service obtained and a paging that ends after
    [n] turns, any fuel above [n] yields the outcome built from the files
    of the pages, and these are the files of the history. *)
Lemma run_completes fuel owner key w service w2 n files :
  connects delegated_credentials build print key owner w service w2 ->
  paging_ends execute_list service owner w2 n files ->
  n < fuel ->
  exists s',
    routine fuel owner key (start w)
    = (conclude parse_error to_datetime (Return files), s')
    /\ files_received (history s') = files
    /\ length (history s') = S n.
Proof.
  intros (creds & w0 & w1 & Hcreds & Hbuild & Hprint)
    (st & results & w3 & Hn & Hcall & Htok & ->) Hfuel.
  pose proof (paginate_returns execute_list service owner n fuel _ _ _ _
                Hn Hcall Htok Hfuel) as Hpaged.
  simpl in Hpaged.
  eexists. split.
  - unfold user_shared_gems, bind, extern, lift, ret. simpl.
    rewrite Hcreds. simpl. rewrite Hbuild. simpl. rewrite Hprint. simpl.
    unfold start in Hpaged. rewrite Hpaged. simpl.
    by destruct (build_rows _ []).
  - apply paginate_session in Hpaged as (h & Hh & Hsess).
    simpl in *. rewrite <- Hh in Hsess. split.
    + by rewrite (session_files _ _ _ _ _ Hsess).
    + rewrite length_app. simpl.
      rewrite (turns_history_length _ _ _ _ _ _ Hn). simpl. lia.
Qed.

End Runs.

(** ** From files to records *)

Section Records.

Variable parse_error : list cell -> option exn.
Variable to_datetime : list cell -> list (option Timestamp).

(** What a returned frame holds: nothing for no files; otherwise the
    report's columns and, row by row, the file's cells with the timestamp
    texts taken from the parse of the three raw columns. *)
Lemma conclude_lookup files df :
  conclude parse_error to_datetime (Return files) = Return df ->
  length (records df) = length files
  /\ (files <> [] -> columns df = report_columns)
  /\ exists c5 c6 c7 : list cell,
       forall i file, files !! i = Some file ->
         exists o,
           owner_email file = Some o
           /\ records df !! i =
              Some (finished (row_of file o) (stamp (to_datetime c5) i)
                      (stamp (to_datetime c6) i) (stamp (to_datetime c7) i))
           /\ c5 !! i = Some (cell_of (file_createdTime file))
           /\ c6 !! i = Some (cell_of (file_modifiedTime file))
           /\ c7 !! i = Some (Str (default "Never" (file_viewedByMeTime file))).
Proof.
  unfold conclude.
  destruct (build_rows files []) as [e|rows] eqn:Hrows; [done|].
  intros Hdf.
  assert (df = formatted to_datetime rows) as ->.
  { apply (report_inr parse_error). destruct (report _ _ rows); simpl in Hdf;
      congruence. }
  clear Hdf.
  apply build_rows_inr in Hrows as (new & -> & Hall). simpl in *.
  destruct files as [|file0 files].
  { inversion Hall; subst. repeat split; [done|]. by exists [], [], []. }
  assert (new <> []) as Hne by (by inversion Hall).
  assert (Forall (fun d => map fst d = report_columns) new) as Hkeys.
  { clear Hne. induction Hall as [|? ? ? ? (o & _ & ->)]; by constructor. }
  destruct (formatted_lookup to_datetime new Hne Hkeys)
    as (Hcols & c5 & c6 & c7 & Hrec & Hraw).
  split; [|split; [done|]].
  - rewrite (Forall2_length _ _ _ Hall).
    erewrite <- (length_imap _ new). f_equal.
    apply list_eq. intros i. rewrite Hrec, list_lookup_imap. reflexivity.
  - exists c5, c6, c7. intros i file Hfile.
    destruct (Forall2_lookup_l _ _ _ _ _ Hall Hfile) as (d & Hd & o & Ho & ->).
    exists o. rewrite Hrec, Hd. split; [done|]. split; [done|].
    destruct (Hraw _ _ Hd) as (-> & -> & ->). done.
Qed.

(** How the routine ends once the files are gathered and every file has
    given its row: with no file, the empty frame; otherwise with what
    the first failing parse raises, or the rewritten frame. *)
Lemma conclude_outcome files rows :
  build_rows files [] = inr rows ->
  conclude parse_error to_datetime (Return files) =
  match files with
  | [] => Return {| columns := []; records := [] |}
  | _ :: _ =>
      match parse_error (created_column files) with
      | Some e => Raise e
      | None =>
          match parse_error (modified_column files) with
          | Some e => Raise e
          | None =>
              match parse_error (opened_column files) with
              | Some e => Raise e
              | None => Return (formatted to_datetime rows)
              end
          end
      end
  end.
Proof.
  intros Hrows. unfold conclude. rewrite Hrows.
  apply build_rows_inr in Hrows as (new & -> & Hall). simpl in *.
  destruct files as [|file0 files].
  { by inversion Hall. }
  assert (new <> []) as Hne by (by inversion Hall).
  assert (Forall (fun d => map fst d = report_columns) new) as Hkeys.
  { clear Hne. induction Hall as [|? ? ? ? (o & _ & ->)]; by constructor. }
  rewrite (report_outcome parse_error to_datetime new Hne Hkeys).
  destruct (raw_columns _ _ Hall) as (-> & -> & ->).
  by repeat destruct (parse_error _).
Qed.

End Records.

(** * The report *)

Section Report.

Context {World Credentials Service : Type}.
Variable delegated_credentials :
  string -> list string -> string -> World -> (exn + Credentials) * World.
Variable build :
  string -> string -> Credentials -> World -> (exn + Service) * World.
Variable print : string -> World -> (exn + unit) * World.
Variable execute_list : Service -> Request -> World -> (exn + Response) * World.
Variable parse_error : list cell -> option exn.
Variable to_datetime : list cell -> list (option Timestamp).

Local Notation "'routine'" :=
  (user_shared_gems delegated_credentials build print execute_list parse_error
     to_datetime).

(** A run that returned a frame paged to the end, and built the frame
    from the files of its history. *)
Lemma run_returned fuel owner key w df s' :
  routine fuel owner key (start w) = (Return df, s') ->
  session owner None [] (history s') (Return (files_received (history s')))
  /\ conclude parse_error to_datetime (Return (files_received (history s'))) = Return df.
Proof.
  intros Hrun. apply run_session in Hrun as [[_ [e He]]|(paged & Hsess & Hr)];
    [done|].
  destruct paged as [files|e|]; try done.
  pose proof (session_files _ _ _ _ _ Hsess) as Hfiles. simpl in Hfiles.
  by subst files.
Qed.

(** The cells of a returned frame, by label, for the row of file [i]. *)
Lemma returned_cells fuel owner key w df s' i file :
  routine fuel owner key (start w) = (Return df, s') ->
  files_received (history s') !! i = Some file ->
  exists o c5 c6 c7,
    owner_email file = Some o
    /\ columns df = report_columns
    /\ records df !! i =
       Some (finished (row_of file o) (stamp (to_datetime c5) i)
               (stamp (to_datetime c6) i) (stamp (to_datetime c7) i))
    /\ c5 !! i = Some (cell_of (file_createdTime file))
    /\ c6 !! i = Some (cell_of (file_modifiedTime file))
    /\ c7 !! i = Some (Str (default "Never" (file_viewedByMeTime file))).
Proof.
  intros Hrun Hfile. apply run_returned in Hrun as [_ Hdf].
  apply conclude_lookup in Hdf as (_ & Hcols & c5 & c6 & c7 & Hrec).
  destruct (Hrec _ _ Hfile) as (o & Ho & Hi & H5 & H6 & H7).
  exists o, c5, c6, c7. repeat split; try done.
  apply Hcols. intros Hnil. by rewrite Hnil in Hfile.
Qed.

(** Every row of a returned frame is the row of a file received. *)
Lemma returned_rows fuel owner key w df s' i r :
  routine fuel owner key (start w) = (Return df, s') ->
  records df !! i = Some r ->
  exists file, files_received (history s') !! i = Some file.
Proof.
  intros Hrun Hr. apply run_returned in Hrun as [_ Hdf].
  apply conclude_lookup in Hdf as (Hlen & _).
  apply lookup_lt_is_Some. rewrite <- Hlen. by eapply lookup_lt_Some.
Qed.

Lemma stamp_normal parsed i :
  stamp parsed i = ""
  \/ exists t,
       parsed !! i = Some (Some t)
       /\ stamp parsed i = strftime "%m/%d/%Y" t
       /\ ((1000 <= year t)%N -> is_MMDDYYYY (stamp parsed i) = true).
Proof.
  unfold stamp.
  destruct (parsed !! i) as [[t|]|] eqn:Ht; [|by left..].
  right. exists t. repeat split. apply strftime_mdY.
Qed.

(** C1. For every file object of every page received, the returned frame
    has exactly one row, in the order of receipt; the frame's columns are
    File Name, URL, Owner, Editor(s), Viewer(s), Created, Modified and
    Opened by Me, and each row holds the file's name, link, owner, editor
    list, viewer list and three timestamp texts.  Such a frame is indeed
    returned whenever credentials and service are obtained and the line
    is printed, the paging ends, every file has an owner entry to read,
    the parse raises on none of the three timestamp columns, and the
    fuel covers the pages. *)
Theorem one_row_per_file fuel owner key w r s' :
  routine fuel owner key (start w) = (r, s') ->
  (forall df, r = Return df ->
     let files := files_received (history s') in
     length (records df) = length files
     /\ (files <> [] -> columns df = report_columns)
     /\ forall i file, files !! i = Some file ->
          exists o created modified opened,
            owner_email file = Some o
            /\ records df !! i = Some
                 [ cell_of (file_name file);
                   cell_of (file_webViewLink file);
                   Str o;
                   Str (join ", " (editors_of o (default [] (file_permissions file))));
                   Str (join ", " (viewers_of o (default [] (file_permissions file))));
                   Str created; Str modified; Str opened ])
  /\ (forall service w2 n files,
        connects delegated_credentials build print key owner w service w2 ->
        paging_ends execute_list service owner w2 n files ->
        Forall has_owner files ->
        parse_error (created_column files) = None ->
        parse_error (modified_column files) = None ->
        parse_error (opened_column files) = None ->
        n < fuel ->
        files_received (history s') = files /\ exists df, r = Return df).
Proof.
  intros Hrun. split.
  - intros df ->. apply run_returned in Hrun as [_ Hdf].
    apply conclude_lookup in Hdf as (Hlen & Hcols & c5 & c6 & c7 & Hrec).
    repeat split; try done.
    intros i file Hfile. destruct (Hrec _ _ Hfile) as (o & Ho & Hi & _).
    exists o. do 3 eexists. split; [done|]. rewrite Hi. reflexivity.
  - intros service w2 n files Hconn Hpages Hown H5 H6 H7 Hfuel.
    destruct (run_completes _ _ _ _ parse_error to_datetime _ _ _ _ _ _ _ _
                Hconn Hpages Hfuel) as (s'' & Hrun' & Hfiles & _).
    rewrite Hrun in Hrun'. injection Hrun' as -> <-. split; [done|].
    destruct (build_rows_total files [] Hown) as [rows Hrows].
    pose proof (conclude_outcome parse_error to_datetime _ _ Hrows) as Hend.
    unfold conclude in Hend. rewrite Hend.
    destruct files; [by eexists|]. rewrite H5, H6, H7. by eexists.
Qed.

(** C2. For every file, the access-control entries are split between the
    two lists: an entry whose identity equals the file's owner cell goes
    to neither; of the others, those with role [writer] give the
    Editor(s) cell, those with role [reader] or [commenter] the Viewer(s)
    cell, in their order, and any other role goes to neither.  Each cell
    is the identities joined by a comma and a space. *)
Theorem permissions_partitioned fuel owner key w df s' i file :
  routine fuel owner key (start w) = (Return df, s') ->
  files_received (history s') !! i = Some file ->
  exists o,
    owner_email file = Some o
    /\ df_cell df i "Owner" = Some (Str o)
    /\ df_cell df i "Editor(s)" =
       Some (Str (join ", "
         (identity <$> filter (fun perm =>
                                 identity perm <> o
                                 /\ perm_role perm = Some "writer")
                         (default [] (file_permissions file)))))
    /\ df_cell df i "Viewer(s)" =
       Some (Str (join ", "
         (identity <$> filter (fun perm =>
                                 identity perm <> o
                                 /\ (perm_role perm = Some "reader"
                                     \/ perm_role perm = Some "commenter"))
                         (default [] (file_permissions file))))).
Proof.
  intros Hrun Hfile.
  destruct (returned_cells _ _ _ _ _ _ _ _ Hrun Hfile)
    as (o & c5 & c6 & c7 & Ho & Hcols & Hi & _).
  exists o. split; [done|].
  unfold df_cell. rewrite Hcols, Hi. by repeat split.
Qed.

(** C3, amended. Every cell of the columns Created, Modified and Opened
    by Me of a returned frame is a text: the empty text where the parse
    of the column gave no timestamp for the row, and otherwise the date
    [strftime] writes for the timestamp it gave, month and day in two
    places and the year after them.  That date has the form MM/DD/YYYY
    whenever the year is 1000 or later.  (An empty frame has no cells.) *)
Theorem timestamps_normalised fuel owner key w df s' col i c :
  routine fuel owner key (start w) = (Return df, s') ->
  col ∈ time_cols ->
  df_cell df i col = Some c ->
  exists series,
    c = Str match to_datetime series !! i with
            | Some (Some t) => strftime "%m/%d/%Y" t
            | _ => ""
            end
    /\ (c = Str ""
        \/ exists t,
             to_datetime series !! i = Some (Some t)
             /\ c = Str (pad2 (month t) ++ "/" ++ pad2 (day t) ++ "/"
                         ++ year_text (year t))%string
             /\ ((1000 <= year t)%N ->
                 exists s, c = Str s /\ is_MMDDYYYY s = true)).
Proof.
  intros Hrun Hcol Hc.
  assert (exists r, records df !! i = Some r) as [r Hr].
  { unfold df_cell in Hc. destruct (col_index _ _); [|done].
    destruct (records df !! i); [by eexists|done]. }
  destruct (returned_rows _ _ _ _ _ _ _ _ Hrun Hr) as [file Hfile].
  destruct (returned_cells _ _ _ _ _ _ _ _ Hrun Hfile)
    as (o & c5 & c6 & c7 & _ & Hcols & Hi & _).
  unfold df_cell in Hc. rewrite Hcols, Hi in Hc.
  assert (exists series, c = Str (stamp (to_datetime series) i)) as [series ->].
  { assert (col = "Created" \/ col = "Modified" \/ col = "Opened by Me")
      as Hwhich.
    { unfold time_cols in Hcol. rewrite !elem_of_cons in Hcol.
      destruct Hcol as [?|[?|[?|Hnil]]]; auto. by apply not_elem_of_nil in Hnil. }
    destruct Hwhich as [Hw|[Hw|Hw]]; subst col;
      simpl in Hc; injection Hc as <-; by eexists. }
  exists series. split; [done|].
  destruct (stamp_normal (to_datetime series) i) as [->|(t & Ht & Hs & Hform)];
    [by left|].
  right. exists t. split; [done|]. split.
  - by rewrite Hs, strftime_mdY_text.
  - intros Hy. eexists. split; [done|]. by apply Hform.
Qed.

(** C9. For a file whose object has no [viewedByMeTime], the Opened by Me
    cell of the returned frame is the empty text and not the placeholder
    [Never]: the placeholder is what the column holds before it is
    parsed, and the parse gives no timestamp for it. *)
Theorem never_opened_is_blank fuel owner key w df s' i file :
  (forall series j t, series !! j = Some (Str "Never") ->
     to_datetime series !! j <> Some (Some t)) ->
  routine fuel owner key (start w) = (Return df, s') ->
  files_received (history s') !! i = Some file ->
  file_viewedByMeTime file = None ->
  df_cell df i "Opened by Me" = Some (Str "")
  /\ df_cell df i "Opened by Me" <> Some (Str "Never").
Proof.
  intros Hnever Hrun Hfile Hviewed.
  destruct (returned_cells _ _ _ _ _ _ _ _ Hrun Hfile)
    as (o & c5 & c6 & c7 & _ & Hcols & Hi & _ & _ & H7).
  rewrite Hviewed in H7. simpl in H7.
  assert (stamp (to_datetime c7) i = "") as Hblank.
  { unfold stamp. destruct (to_datetime c7 !! i) as [[t|]|] eqn:Ht; [|done..].
    by destruct (Hnever _ _ t H7). }
  unfold df_cell. rewrite Hcols, Hi. simpl. by rewrite Hblank.
Qed.

End Report.

(** * The listing *)

Section Listing.

Context {World Credentials Service : Type}.
Variable delegated_credentials :
  string -> list string -> string -> World -> (exn + Credentials) * World.
Variable build :
  string -> string -> Credentials -> World -> (exn + Service) * World.
Variable print : string -> World -> (exn + unit) * World.
Variable execute_list : Service -> Request -> World -> (exn + Response) * World.
Variable parse_error : list cell -> option exn.
Variable to_datetime : list cell -> list (option Timestamp).

Local Notation "'routine'" :=
  (user_shared_gems delegated_credentials build print execute_list parse_error
     to_datetime).

(** The history of a run is a session, unless it is empty. *)
Lemma run_history fuel owner key w r s' :
  routine fuel owner key (start w) = (r, s') ->
  history s' = []
  \/ exists paged, session owner None [] (history s') paged
       /\ r = conclude parse_error to_datetime paged.
Proof.
  intros Hrun. apply run_session in Hrun as [[Hnil _]|Hsess]; [by left|by right].
Qed.

(** Each request of a run carries the token of the response before it,
    the first one none. *)
Lemma run_tokens fuel owner key w r s' i req out :
  routine fuel owner key (start w) = (r, s') ->
  history s' !! i = Some (req, out) ->
  match i with
  | 0 => req = list_request owner None
  | S j =>
      exists req' results,
        history s' !! j = Some (req', inr results)
        /\ truthy (resp_nextPageToken results) = true
        /\ req = list_request owner (resp_nextPageToken results)
  end.
Proof.
  intros Hrun Hi.
  apply run_history in Hrun as [Hnil|(paged & Hsess & _)].
  { by rewrite Hnil in Hi. }
  destruct i as [|j].
  - exact (session_first _ _ _ _ _ _ Hsess Hi).
  - destruct (history s' !! j) as [[req' out']|] eqn:Hj.
    + destruct (session_next _ _ _ _ _ Hsess _ _ _ Hj Hi)
        as (results & Hout & Htok & Hreq).
      simpl in *. subst out'. by exists req', results.
    + apply lookup_ge_None in Hj. apply lookup_lt_Some in Hi. lia.
Qed.

(** Every request of a run is the list request for some page token. *)
Lemma run_requests fuel owner key w r s' i req out :
  routine fuel owner key (start w) = (r, s') ->
  history s' !! i = Some (req, out) ->
  exists token, req = list_request owner token.
Proof.
  intros Hrun Hi. pose proof (run_tokens _ _ _ _ _ _ _ _ _ Hrun Hi) as H.
  destruct i; [by eexists|]. destruct H as (? & ? & _ & _ & ->). by eexists.
Qed.

(** C4. If an invocation of the listing call raises, the routine ends
    with that very failure and returns no frame; the failed call is the
    last request of the run, so nothing is retried and nothing is tried
    in its place. *)
Theorem list_failure_propagates fuel owner key w r s' i req e :
  routine fuel owner key (start w) = (r, s') ->
  history s' !! i = Some (req, inl e) ->
  r = Raise e
  /\ (forall df, r <> Return df)
  /\ S i = length (history s').
Proof.
  intros Hrun Hi.
  apply run_history in Hrun as [Hnil|(paged & Hsess & ->)].
  { by rewrite Hnil in Hi. }
  destruct (session_raised _ _ _ _ _ Hsess _ _ _ Hi) as [-> Hlast].
  by repeat split.
Qed.

(** C5, amended. The loop issues the listing call again and again, each
    request carrying the token of the response before it (the first one
    none), and it stops exactly at a response whose [nextPageToken] is
    absent or the empty text.  When credentials and service are obtained
    and the responses reach such a token after [n] turns, a run with more
    fuel than [n] does not run out of it: it makes [n + 1] requests and
    goes on with the files of all these pages, in order. *)
Theorem paging_stops_on_falsy_token fuel owner key w r s' :
  routine fuel owner key (start w) = (r, s') ->
  (forall i req out, history s' !! i = Some (req, out) ->
     match i with
     | 0 => pageToken req = None
     | S j =>
         exists req' results,
           history s' !! j = Some (req', inr results)
           /\ pageToken req = resp_nextPageToken results
     end)
  /\ (r <> OutOfFuel ->
      forall i req results, history s' !! i = Some (req, inr results) ->
        (S i = length (history s')
         <-> resp_nextPageToken results = None
             \/ resp_nextPageToken results = Some ""))
  /\ (forall service w2 n files,
        connects delegated_credentials build print key owner w service w2 ->
        paging_ends execute_list service owner w2 n files ->
        n < fuel ->
        r <> OutOfFuel
        /\ r = conclude parse_error to_datetime (Return files)
        /\ files_received (history s') = files
        /\ length (history s') = S n).
Proof.
  intros Hrun. split; [|split].
  - intros i req out Hi. pose proof (run_tokens _ _ _ _ _ _ _ _ _ Hrun Hi) as H.
    destruct i as [|j]; [by subst req|].
    destruct H as (req' & results & Hj & _ & ->). by exists req', results.
  - intros Hr i req results Hi.
    apply run_history in Hrun as [Hnil|(paged & Hsess & ->)].
    { by rewrite Hnil in Hi. }
    rewrite <- truthy_false.
    apply (session_exit _ _ _ _ _ Hsess) with (req := req); [|done].
    intros ->. by apply Hr.
  - intros service w2 n files Hconn Hpages Hfuel.
    destruct (run_completes _ _ _ _ parse_error to_datetime _ _ _ _ _ _ _ _
                Hconn Hpages Hfuel) as (s'' & Hrun' & Hfiles & Hlen).
    rewrite Hrun in Hrun'. injection Hrun' as -> <-.
    repeat split; try done.
    simpl. destruct (build_rows files []) as [e|rows]; [done|].
    by destruct (report _ _ rows).
Qed.

(** C6. Every request to the listing endpoint asks for the files of the
    Gem MIME type that have the given owner among their owners (two of
    the clauses its query joins with [and]), with a page size of 100 and
    a field mask whose file fields include [permissions]; the first
    request carries no page token and every later one the non-empty token
    of the response before it. *)
Theorem every_request_shaped fuel owner key w r s' i req out :
  routine fuel owner key (start w) = (r, s') ->
  history s' !! i = Some (req, out) ->
  q req = join " and " [mime_clause; owner_clause owner; trashed_clause]
  /\ pageSize req = 100
  /\ fields req = ("nextPageToken, files(" ++ join ", " file_fields ++ ")")%string
  /\ "permissions" ∈ file_fields
  /\ match i with
     | 0 => pageToken req = None
     | S j =>
         exists req' results token,
           history s' !! j = Some (req', inr results)
           /\ resp_nextPageToken results = Some token
           /\ token <> ""
           /\ pageToken req = Some token
     end.
Proof.
  intros Hrun Hi. pose proof (run_tokens _ _ _ _ _ _ _ _ _ Hrun Hi) as H.
  destruct (run_requests _ _ _ _ _ _ _ _ _ Hrun Hi) as [t Hreq].
  split; [|split; [|split; [|split]]].
  - subst req. apply query_clauses.
  - by subst req.
  - by subst req.
  - unfold file_fields. rewrite !elem_of_cons. tauto.
  - destruct i as [|j]; [by subst req|].
    destruct H as (req' & results & Hj & Htok & ->).
    apply truthy_true in Htok as (token & Htoken & Hne).
    exists req', results, token. by rewrite Htoken.
Qed.

(** C10. Every query sent to the listing endpoint is the conjunction of
    the MIME clause, the owner clause and, besides them, the restriction
    [trashed = false].  So, in a run where the endpoint answers a
    conjunction that has this restriction among its clauses only with
    files out of the bin, no trashed file is among the files received,
    and every row of a returned frame is the row of a file that is not
    trashed. *)
Theorem trashed_files_left_out (trashed : File -> bool) fuel owner key w r s' :
  routine fuel owner key (start w) = (r, s') ->
  (forall i req out, history s' !! i = Some (req, out) ->
     q req = join " and " [mime_clause; owner_clause owner; trashed_clause])
  /\ ((forall req results clauses,
         (req, inr results) ∈ history s' ->
         q req = join " and " clauses ->
         trashed_clause ∈ clauses ->
         Forall (fun file => trashed file = false)
           (default [] (resp_files results))) ->
      Forall (fun file => trashed file = false) (files_received (history s'))
      /\ (forall df i rec, r = Return df -> records df !! i = Some rec ->
            exists file,
              files_received (history s') !! i = Some file
              /\ trashed file = false
              /\ rec !! 0 = Some (cell_of (file_name file)))).
Proof.
  intros Hrun.
  assert (forall i req out, history s' !! i = Some (req, out) ->
            q req = join " and " [mime_clause; owner_clause owner; trashed_clause])
    as Hq.
  { intros i req out Hi.
    destruct (run_requests _ _ _ _ _ _ _ _ _ Hrun Hi) as [t ->].
    apply query_clauses. }
  split; [exact Hq|]. intros Hkeeps.
  assert (Forall (fun file => trashed file = false)
            (files_received (history s'))) as Hfiles.
  { unfold files_received. apply Forall_flat_map, Forall_lookup.
    intros i [req out] Hi. unfold page_files. simpl.
    destruct out as [e|results]; [by constructor|].
    apply (Hkeeps req results [mime_clause; owner_clause owner; trashed_clause]).
    - by eapply list_elem_of_lookup_2.
    - by eapply Hq.
    - rewrite !elem_of_cons. tauto. }
  split; [done|].
  intros df i rec -> Hrec.
  destruct (returned_rows _ _ _ _ _ _ _ _ _ _ _ _ _ _ Hrun Hrec) as [file Hfile].
  exists file. split; [done|]. split.
  - rewrite Forall_forall in Hfiles. apply Hfiles.
    by eapply list_elem_of_lookup_2.
  - destruct (returned_cells _ _ _ _ _ _ _ _ _ _ _ _ _ _ Hrun Hfile)
      as (o & c5 & c6 & c7 & _ & _ & Hi & _).
    rewrite Hi in Hrec. by injection Hrec as <-.
Qed.

End Listing.

(** C8. The identity an entry contributes follows a fixed order of
    preference: the [emailAddress] if present and not empty, otherwise the
    [displayName] if present and not empty, otherwise the [domain] if
    present and not empty, otherwise the text [Unknown]. *)
Theorem identity_priority perm :
  let missing (x : option string) := x = None \/ x = Some "" in
  (forall email, perm_emailAddress perm = Some email -> email <> "" ->
     identity perm = email)
  /\ (missing (perm_emailAddress perm) ->
      forall name, perm_displayName perm = Some name -> name <> "" ->
        identity perm = name)
  /\ (missing (perm_emailAddress perm) -> missing (perm_displayName perm) ->
      forall domain, perm_domain perm = Some domain -> domain <> "" ->
        identity perm = domain)
  /\ (missing (perm_emailAddress perm) -> missing (perm_displayName perm) ->
      missing (perm_domain perm) ->
      identity perm = "Unknown").
Proof.
  intros missing. unfold identity.
  assert (forall x, missing x -> truthy x = false) as Hmiss.
  { intros x Hx. by apply truthy_false. }
  assert (forall x s, x = Some s -> s <> "" -> truthy x = true) as Hthere.
  { intros x s -> Hs. apply truthy_true. by exists s. }
  repeat split.
  - intros email He Hne.
    rewrite (py_or_l (perm_emailAddress perm)) by eauto.
    rewrite py_or_l, He by eauto. by apply py_or_else_l.
  - intros He name Hn Hne.
    rewrite (py_or_r _ _ (Hmiss _ He)), py_or_l, Hn by eauto.
    by apply py_or_else_l.
  - intros He Hn domain Hd Hne.
    rewrite (py_or_r _ _ (Hmiss _ He)), (py_or_r _ _ (Hmiss _ Hn)), Hd.
    by apply py_or_else_l.
  - intros He Hn Hd.
    rewrite (py_or_r _ _ (Hmiss _ He)), (py_or_r _ _ (Hmiss _ Hn)).
    by apply py_or_else_r, Hmiss.
Qed.

(** * The scripted Drive at work *)

Lemma demo_connects w :
  connects Demo.credentials Demo.build Demo.print service_account_key
    Demo.owner w tt w.
Proof. by exists tt, w, w. Qed.

Lemma demo_two_pages_end :
  paging_ends (Demo.scripted Demo.two_pages) tt Demo.owner 0 1
    [Demo.gem_a; Demo.gem_b].
Proof.
  eexists _, _, _. split; [|split; [|split]].
  - eapply nsteps_l; [|apply nsteps_O].
    by apply (turns_again _ _ _ [] None (start 0)
                {| resp_files := Some [Demo.gem_a];
                   resp_nextPageToken := Some "t1" |} 1).
  - reflexivity.
  - reflexivity.
  - reflexivity.
Qed.

Lemma demo_parse_never series j t :
  series !! j = Some (Str "Never") ->
  Demo.to_datetime series !! j <> Some (Some t).
Proof.
  intros Hj. unfold Demo.to_datetime. rewrite lookup_map, Hj. simpl. congruence.
Qed.

Lemma demo_two_pages_run :
  Demo.run Demo.two_pages 5
  = (Return (Demo.frame Demo.two_pages 5), Demo.final Demo.two_pages 5).
Proof. vm_compute. reflexivity. Qed.

Lemma demo_failing_run :
  Demo.run Demo.failing 5
  = (Raise (External "HttpError 500"), Demo.final Demo.failing 5).
Proof. vm_compute. reflexivity. Qed.

Lemma one_row_per_file_witness :
  files_received (history (Demo.final Demo.two_pages 5))
  = [Demo.gem_a; Demo.gem_b]
  /\ exists df, Return (Demo.frame Demo.two_pages 5) = Return df.
Proof.
  destruct (one_row_per_file Demo.credentials Demo.build Demo.print
              (Demo.scripted Demo.two_pages) Demo.parse_error Demo.to_datetime
              5 Demo.owner service_account_key 0
              (Return (Demo.frame Demo.two_pages 5)) (Demo.final Demo.two_pages 5))
    as [_ Hreturns].
  - apply demo_two_pages_run.
  - apply (Hreturns tt 0 1).
    + apply demo_connects.
    + apply demo_two_pages_end.
    + repeat constructor; unfold has_owner; simpl; congruence.
    + reflexivity.
    + reflexivity.
    + reflexivity.
    + lia.
Defined.

Lemma permissions_partitioned_witness :
  exists o,
    owner_email Demo.gem_a = Some o
    /\ df_cell (Demo.frame Demo.two_pages 5) 0 "Owner" = Some (Str o)
    /\ df_cell (Demo.frame Demo.two_pages 5) 0 "Editor(s)"
       = Some (Str "bob@example.org")
    /\ df_cell (Demo.frame Demo.two_pages 5) 0 "Viewer(s)"
       = Some (Str "example.org, Carol, Unknown").
Proof.
  destruct (permissions_partitioned Demo.credentials Demo.build Demo.print
              (Demo.scripted Demo.two_pages) Demo.parse_error Demo.to_datetime
              5 Demo.owner service_account_key 0
              (Demo.frame Demo.two_pages 5) (Demo.final Demo.two_pages 5)
              0 Demo.gem_a)
    as (o & Ho & Howner & Heditors & Hviewers).
  - apply demo_two_pages_run.
  - vm_compute. reflexivity.
  - exists o. split; [done|]. split; [done|].
    injection Ho as <-. rewrite Heditors, Hviewers.
    split; vm_compute; reflexivity.
Defined.

Lemma timestamps_normalised_witness :
  exists series,
    Str "01/05/2024"
    = Str match Demo.to_datetime series !! 0 with
          | Some (Some t) => strftime "%m/%d/%Y" t
          | _ => ""
          end
    /\ (Str "01/05/2024" = Str ""
        \/ exists t,
             Demo.to_datetime series !! 0 = Some (Some t)
             /\ Str "01/05/2024"
                = Str (pad2 (month t) ++ "/" ++ pad2 (day t) ++ "/"
                       ++ year_text (year t))%string
             /\ ((1000 <= year t)%N ->
                 exists s, Str "01/05/2024" = Str s /\ is_MMDDYYYY s = true)).
Proof.
  apply (timestamps_normalised Demo.credentials Demo.build Demo.print
           (Demo.scripted Demo.two_pages) Demo.parse_error Demo.to_datetime
           5 Demo.owner service_account_key 0
           (Demo.frame Demo.two_pages 5) (Demo.final Demo.two_pages 5)
           "Created" 0 (Str "01/05/2024")).
  - apply demo_two_pages_run.
  - unfold time_cols. apply elem_of_cons. by left.
  - vm_compute. reflexivity.
Defined.

Lemma never_opened_is_blank_witness :
  file_viewedByMeTime Demo.gem_a = None
  /\ df_cell (Demo.frame Demo.two_pages 5) 0 "Opened by Me" = Some (Str "")
  /\ df_cell (Demo.frame Demo.two_pages 5) 0 "Opened by Me" <> Some (Str "Never").
Proof.
  split; [reflexivity|].
  apply (never_opened_is_blank Demo.credentials Demo.build Demo.print
           (Demo.scripted Demo.two_pages) Demo.parse_error Demo.to_datetime
           5 Demo.owner service_account_key 0
           (Demo.frame Demo.two_pages 5) (Demo.final Demo.two_pages 5)
           0 Demo.gem_a).
  - apply demo_parse_never.
  - apply demo_two_pages_run.
  - vm_compute. reflexivity.
  - reflexivity.
Defined.

Lemma list_failure_propagates_witness :
  @Raise DataFrame (External "HttpError 500") = Raise (External "HttpError 500")
  /\ (forall df : DataFrame, Raise (External "HttpError 500") <> Return df)
  /\ 2 = length (history (Demo.final Demo.failing 5)).
Proof.
  apply (list_failure_propagates Demo.credentials Demo.build Demo.print
           (Demo.scripted Demo.failing) Demo.parse_error Demo.to_datetime
           5 Demo.owner service_account_key 0
           (Raise (External "HttpError 500")) (Demo.final Demo.failing 5)
           1 (list_request Demo.owner (Some "t1")) (External "HttpError 500")).
  - apply demo_failing_run.
  - vm_compute. reflexivity.
Defined.

Lemma paging_stops_on_falsy_token_witness :
  Return (Demo.frame Demo.two_pages 5) <> OutOfFuel
  /\ Return (Demo.frame Demo.two_pages 5)
     = conclude Demo.parse_error Demo.to_datetime (Return [Demo.gem_a; Demo.gem_b])
  /\ files_received (history (Demo.final Demo.two_pages 5))
     = [Demo.gem_a; Demo.gem_b]
  /\ length (history (Demo.final Demo.two_pages 5)) = 2.
Proof.
  destruct (paging_stops_on_falsy_token Demo.credentials Demo.build Demo.print
              (Demo.scripted Demo.two_pages) Demo.parse_error Demo.to_datetime
              5 Demo.owner service_account_key 0
              (Return (Demo.frame Demo.two_pages 5)) (Demo.final Demo.two_pages 5))
    as (_ & _ & Hends).
  - apply demo_two_pages_run.
  - apply (Hends tt 0 1).
    + apply demo_connects.
    + apply demo_two_pages_end.
    + lia.
Defined.

Lemma every_request_shaped_witness :
  q (list_request Demo.owner (Some "t1"))
  = join " and " [mime_clause; owner_clause Demo.owner; trashed_clause]
  /\ pageSize (list_request Demo.owner (Some "t1")) = 100
  /\ fields (list_request Demo.owner (Some "t1"))
     = ("nextPageToken, files(" ++ join ", " file_fields ++ ")")%string
  /\ "permissions" ∈ file_fields
  /\ exists req' results token,
       history (Demo.final Demo.two_pages 5) !! 0 = Some (req', inr results)
       /\ resp_nextPageToken results = Some token
       /\ token <> ""
       /\ pageToken (list_request Demo.owner (Some "t1")) = Some token.
Proof.
  apply (every_request_shaped Demo.credentials Demo.build Demo.print
           (Demo.scripted Demo.two_pages) Demo.parse_error Demo.to_datetime
           5 Demo.owner service_account_key 0
           (Return (Demo.frame Demo.two_pages 5)) (Demo.final Demo.two_pages 5)
           1 (list_request Demo.owner (Some "t1")) (Demo.page [Demo.gem_b] None)).
  - apply demo_two_pages_run.
  - vm_compute. reflexivity.
Defined.

Lemma demo_filtering_run :
  Demo.run_on Demo.filtering 5
  = (fst (Demo.run_on Demo.filtering 5),
     {| world := 1;
        history := [(Demo.asked, Demo.page [Demo.gem_a] None)] |}).
Proof. vm_compute. reflexivity. Qed.

Lemma trashed_files_left_out_witness :
  Demo.is_trashed Demo.gem_z = true
  /\ Demo.gem_z ∈ Demo.store
  /\ fst (Demo.filtering tt Demo.asked_unrestricted 0)
     = Demo.page [Demo.gem_a; Demo.gem_z] None
  /\ Forall (fun file => Demo.is_trashed file = false)
       (files_received (history (snd (Demo.run_on Demo.filtering 5)))).
Proof.
  split; [reflexivity|].
  split; [apply list_elem_of_further, list_elem_of_here|].
  split; [vm_compute; reflexivity|].
  rewrite demo_filtering_run.
  apply (trashed_files_left_out Demo.credentials Demo.build Demo.print
           Demo.filtering Demo.parse_error Demo.to_datetime
           Demo.is_trashed 5 Demo.owner service_account_key 0
           (fst (Demo.run_on Demo.filtering 5))
           {| world := 1;
              history := [(Demo.asked, Demo.page [Demo.gem_a] None)] |}).
  - apply demo_filtering_run.
  - intros req results clauses Hin _ _.
    apply list_elem_of_singleton in Hin. injection Hin as _ ->.
    repeat constructor.
Defined.

Lemma identity_priority_witness :
  identity (Demo.perm None (Some "") (Some "example.org") (Some "reader"))
  = "example.org".
Proof.
  destruct (identity_priority
              (Demo.perm None (Some "") (Some "example.org") (Some "reader")))
    as (_ & _ & Hdomain & _).
  apply Hdomain; simpl; auto; discriminate.
Defined.

(** C5, as first worded, fails: a response whose token is the empty text
    carries a [nextPageToken], and the loop stops at it all the same; the
    page that would follow, the one without a token, is never asked for. *)
Lemma empty_token_ends_paging :
  fst (Demo.run Demo.empty_token 5) <> OutOfFuel
  /\ files_received (history (snd (Demo.run Demo.empty_token 5))) = [Demo.gem_a]
  /\ ~ stops_when_token_absent (history (snd (Demo.run Demo.empty_token 5))).
Proof.
  split; [by vm_compute|]. split; [vm_compute; reflexivity|].
  intros Hstops.
  destruct (Hstops 0 (list_request Demo.owner None)
              {| resp_files := Some [Demo.gem_a]; resp_nextPageToken := Some "" |})
    as [Hlast _].
  - vm_compute. reflexivity.
  - discriminate Hlast. vm_compute. reflexivity.
Qed.

(** C3, as first worded, fails: a creation time in the year 999 is
    parsed, and the date written for it has a year of three places. *)
Lemma short_year_is_no_MMDDYYYY :
  fst (Demo.run Demo.old_page 5) = Return (Demo.frame Demo.old_page 5)
  /\ df_empty (Demo.frame Demo.old_page 5) = false
  /\ df_cell (Demo.frame Demo.old_page 5) 0 "Created" = Some (Str "01/05/999")
  /\ ~ dates_or_blank (Demo.frame Demo.old_page 5).
Proof.
  split; [vm_compute; reflexivity|]. split; [vm_compute; reflexivity|].
  split; [vm_compute; reflexivity|].
  intros Hdates.
  destruct (Hdates "Created" 0 (Str "01/05/999")) as [Hblank|(s & Hs & Hform)].
  - unfold time_cols. apply elem_of_cons. by left.
  - vm_compute. reflexivity.
  - discriminate Hblank.
  - injection Hs as <-. vm_compute in Hform. discriminate Hform.
Qed.

(** * Beyond the listed statements *)

(** ** Identities and the two lists *)

Lemma py_or_else_filled a b : b <> "" -> py_or_else a b <> "".
Proof.
  intros Hb. unfold py_or_else. destruct a as [s|]; [|done].
  destruct (truthy (Some s)) eqn:Hs; [|done].
  apply truthy_true in Hs as (s' & [= <-] & Hne). done.
Qed.

(** X7. The identity of an entry is never the empty text: whatever the
    entry holds, a name is found or [Unknown] stands in. *)
Theorem identity_never_empty perm : identity perm <> "".
Proof. unfold identity. by apply py_or_else_filled. Qed.

Lemma filters_apart o (permissions : list Permission) :
  length (filter (is_editor o) permissions)
  + length (filter (is_viewer o) permissions) <= length permissions.
Proof.
  induction permissions as [|perm permissions IH]; [done|].
  rewrite !filter_cons.
  destruct (decide (is_editor o perm)) as [[_ He]|_];
    destruct (decide (is_viewer o perm)) as [[_ Hv]|_]; simpl; try lia.
  destruct Hv; congruence.
Qed.

(** X8. In the row of a file, the owner's identity is in neither list,
    every name listed is the identity of one of the file's entries, and
    no entry is counted twice: the two lists together are no longer than
    the entries. *)
Theorem owner_never_listed file row :
  make_row file = inr row ->
  exists o editors viewers,
    dict_get "Owner" row = Some (Str o)
    /\ dict_get "Editor(s)" row = Some (Str (join ", " editors))
    /\ dict_get "Viewer(s)" row = Some (Str (join ", " viewers))
    /\ (o ∉ editors) /\ (o ∉ viewers)
    /\ (forall name, name ∈ editors ++ viewers ->
          exists perm, perm ∈ default [] (file_permissions file)
                       /\ name = identity perm)
    /\ length editors + length viewers
       <= length (default [] (file_permissions file)).
Proof.
  rewrite make_row_spec. destruct (owner_email file) as [o|]; [|done].
  intros [= <-].
  exists o, (editors_of o (default [] (file_permissions file))),
    (viewers_of o (default [] (file_permissions file))).
  unfold editors_of, viewers_of.
  repeat split; try reflexivity.
  - intros (perm & Hid & [[Hne _] _]%list_elem_of_filter)%list_elem_of_fmap.
    congruence.
  - intros (perm & Hid & [[Hne _] _]%list_elem_of_filter)%list_elem_of_fmap.
    congruence.
  - intros name [Hin|Hin]%elem_of_app;
      apply list_elem_of_fmap in Hin as (perm & -> & [_ Hperm]%list_elem_of_filter);
      by exists perm.
  - rewrite !length_fmap. apply filters_apart.
Qed.

(** ** Files without an owner entry *)

Lemma owner_email_none file :
  owner_email file = None <-> file_owners file = Some [].
Proof.
  unfold owner_email. by destruct (file_owners file) as [[|first rest]|].
Qed.

Lemma build_rows_no_owner files : forall file data_rows,
  file ∈ files -> file_owners file = Some [] ->
  build_rows files data_rows = inl IndexError.
Proof.
  induction files as [|head files IH]; intros file data_rows Hin Hnone.
  - by apply not_elem_of_nil in Hin.
  - simpl. rewrite make_row_spec.
    destruct (owner_email head) as [o|] eqn:Ho; [|done].
    apply elem_of_cons in Hin as [->|Hin]; [|by eapply IH].
    apply owner_email_none in Hnone. congruence.
Qed.

Lemma build_rows_inl files : forall data_rows e,
  build_rows files data_rows = inl e ->
  e = IndexError /\ exists file, file ∈ files /\ file_owners file = Some [].
Proof.
  induction files as [|head files IH]; intros data_rows e Hrows; simpl in Hrows.
  - done.
  - rewrite make_row_spec in Hrows.
    destruct (owner_email head) as [o|] eqn:Ho.
    + destruct (IH _ _ Hrows) as (-> & file & Hin & Hnone).
      split; [done|]. exists file. split; [by apply list_elem_of_further|done].
    + injection Hrows as <-. split; [done|]. exists head.
      split; [by apply list_elem_of_here|by apply owner_email_none].
Qed.

(** ** Sessions that ended in a failure *)

Lemma session_raise_last owner token files h e :
  session owner token files h (Raise e) ->
  exists req, last h = Some (req, inl e).
Proof.
  intros Hsess. remember (Raise e) as r eqn:Hr.
  induction Hsess as [| | |token files results h r Htok Hsess IH]; try done.
  - injection Hr as ->. by eexists.
  - destruct (IH Hr) as [req Hlast]. exists req.
    destruct h as [|x h]; [done|]. exact Hlast.
Qed.

(** ** An endpoint that never stops handing out tokens *)

Section Endless.

Context {World Service : Type}.
Variable execute_list : Service -> Request -> World -> (exn + Response) * World.
Variable service : Service.
Variable owner : string.

Hypothesis always_more : forall token w,
  exists results w',
    execute_list service (list_request owner token) w = (inr results, w')
    /\ truthy (resp_nextPageToken results) = true.

Lemma paginate_endless fuel : forall files token (s : Env),
  exists s',
    paginate execute_list fuel service owner files token s = (OutOfFuel, s')
    /\ length (history s') = length (history s) + fuel.
Proof.
  induction fuel as [|fuel IH]; intros files token s.
  - exists s. split; [done|lia].
  - rewrite paginate_step.
    destruct (always_more token (world s)) as (results & w' & -> & Htok).
    simpl. rewrite Htok.
    edestruct IH as (s' & -> & Hlen). exists s'. split; [done|].
    rewrite Hlen. simpl. rewrite length_app. simpl. lia.
Qed.

End Endless.

Section Beyond.

Context {World Credentials Service : Type}.
Variable delegated_credentials :
  string -> list string -> string -> World -> (exn + Credentials) * World.
Variable build :
  string -> string -> Credentials -> World -> (exn + Service) * World.
Variable print : string -> World -> (exn + unit) * World.
Variable execute_list : Service -> Request -> World -> (exn + Response) * World.
Variable parse_error : list cell -> option exn.
Variable to_datetime : list cell -> list (option Timestamp).

Local Notation "'routine'" :=
  (user_shared_gems delegated_credentials build print execute_list parse_error
     to_datetime).


(** X1. When the credentials or the service cannot be obtained, the
    routine ends with that failure before any request is sent, whatever
    the fuel. *)
Theorem failure_before_listing fuel owner key w e w' :
  delegated_credentials key SCOPES owner w = (inl e, w')
  \/ (exists creds w1,
        delegated_credentials key SCOPES owner w = (inr creds, w1)
        /\ build "drive" "v3" creds w1 = (inl e, w')) ->
  routine fuel owner key (start w) = (Raise e, start w').
Proof.
  unfold user_shared_gems, bind, extern, lift, ret, start. simpl.
  intros [Hcreds|(creds & w1 & Hcreds & Hbuild)]; rewrite Hcreds; simpl; [done|].
  by rewrite Hbuild.
Qed.

(** X2. A file whose [owners] is present and empty makes the routine
    raise [IndexError]; this happens after the paging, with every page
    requested, and no frame is returned for the other files. *)
Theorem empty_owners_raise fuel owner key w service w2 n files file :
  connects delegated_credentials build print key owner w service w2 ->
  paging_ends execute_list service owner w2 n files ->
  file ∈ files ->
  file_owners file = Some [] ->
  n < fuel ->
  exists s',
    routine fuel owner key (start w) = (Raise IndexError, s')
    /\ length (history s') = S n
    /\ files_received (history s') = files.
Proof.
  intros Hconn Hpages Hin Hnone Hfuel.
  destruct (run_completes _ _ _ _ parse_error to_datetime _ _ _ _ _ _ _ _
              Hconn Hpages Hfuel) as (s' & Hrun & Hfiles & Hlen).
  exists s'. split; [|done]. rewrite Hrun. simpl.
  by rewrite (build_rows_no_owner files file [] Hin Hnone).
Qed.

(** X3. A run that raises does so for one of four reasons: the
    credentials, the service or the printed line failed and nothing was
    requested; or the last request failed and the failure is the one
    raised; or every request was answered and a file received has an
    empty [owners], and then the exception is [IndexError]; or every
    request was answered, every file gave its row, and the parse of one
    of the three timestamp columns raised the exception. *)
Theorem failures_accounted fuel owner key w e s' :
  routine fuel owner key (start w) = (Raise e, s') ->
  (history s' = []
   /\ ((exists w', delegated_credentials key SCOPES owner w = (inl e, w'))
       \/ (exists creds w1 w',
             delegated_credentials key SCOPES owner w = (inr creds, w1)
             /\ build "drive" "v3" creds w1 = (inl e, w'))
       \/ exists creds w1 service w2 w',
            delegated_credentials key SCOPES owner w = (inr creds, w1)
            /\ build "drive" "v3" creds w1 = (inr service, w2)
            /\ print (querying owner) w2 = (inl e, w')))
  \/ (exists req, last (history s') = Some (req, inl e))
  \/ (e = IndexError
      /\ all_answered (history s')
      /\ exists file,
           file ∈ files_received (history s') /\ file_owners file = Some [])
  \/ (all_answered (history s')
      /\ Forall has_owner (files_received (history s'))
      /\ exists column,
           column ∈ [ created_column (files_received (history s'));
                      modified_column (files_received (history s'));
                      opened_column (files_received (history s')) ]
           /\ parse_error column = Some e).
Proof.
  unfold user_shared_gems, bind, extern, lift, ret. simpl.
  destruct (delegated_credentials _ _ _ _) as [[e0|creds] w1] eqn:Hcreds; simpl.
  { intros [= <- <-]. left. split; [done|]. left. by eexists. }
  destruct (build _ _ _ _) as [[e0|service] w2] eqn:Hbuild; simpl.
  { intros [= <- <-]. left. split; [done|]. right. left. by eexists _, _, _. }
  destruct (print _ _) as [[e0|[]] w3] eqn:Hprint; simpl.
  { intros [= <- <-]. left. split; [done|]. right. right.
    by eexists _, _, _, _, _. }
  destruct (paginate _ _ _ _ _ _ _) as [paged s1] eqn:Hpaged.
  apply paginate_session in Hpaged as (h & Hh & Hsess). simpl in Hh. subst h.
  destruct paged as [files|e0|]; simpl; [| |done].
  - pose proof (session_files _ _ _ _ _ Hsess) as Hfiles. simpl in Hfiles.
    pose proof (session_answered _ _ _ _ _ Hsess) as Hanswered.
    destruct (build_rows files []) as [e0|rows] eqn:Hrows.
    + intros [= <- <-]. right. right. left.
      destruct (build_rows_inl _ _ _ Hrows) as (-> & file & Hin & Hnone).
      split; [done|]. split; [done|]. exists file. by rewrite <- Hfiles.
    + pose proof (conclude_outcome parse_error to_datetime _ _ Hrows) as Hend.
      unfold conclude in Hend. rewrite Hrows in Hend. simpl. rewrite Hend.
      intros Hrun. right. right. right.
      assert (history s' = history s1 /\ Forall has_owner files) as [-> Hown].
      { split; [by destruct files; repeat destruct (parse_error _);
                   injection Hrun as _ <-|].
        apply build_rows_inr in Hrows as (new & _ & Hall).
        clear -Hall. induction Hall as [|file ? ? ? (o & Ho & _)]; constructor;
          [|done]. apply has_owner_email. by rewrite Ho. }
      rewrite <- Hfiles. split; [done|]. split; [done|].
      destruct files as [|file0 files]; [done|].
      destruct (parse_error (created_column _)) as [e5|] eqn:H5.
      { injection Hrun as -> _. eexists. split; [|exact H5].
        apply list_elem_of_here. }
      destruct (parse_error (modified_column _)) as [e6|] eqn:H6.
      { injection Hrun as -> _. eexists. split; [|exact H6].
        apply list_elem_of_further, list_elem_of_here. }
      destruct (parse_error (opened_column _)) as [e7|] eqn:H7; [|done].
      injection Hrun as -> _. eexists. split; [|exact H7].
      do 2 apply list_elem_of_further. apply list_elem_of_here.
  - intros [= <- <-]. right. left. by eapply session_raise_last.
Qed.

(** X4. A returned frame is empty exactly when no file was received, and
    then it has no rows and no columns at all: the eight labels are
    absent. *)
Theorem empty_frame_iff_no_files fuel owner key w df s' :
  routine fuel owner key (start w) = (Return df, s') ->
  (df_empty df = true <-> files_received (history s') = [])
  /\ (files_received (history s') = [] ->
      df = {| columns := []; records := [] |}).
Proof.
  intros Hrun. apply run_returned in Hrun as [_ Hdf].
  pose proof (conclude_lookup parse_error to_datetime _ _ Hdf)
    as (Hlen & Hcols & _).
  destruct (files_received (history s')) as [|file files] eqn:Hfiles.
  - simpl in Hdf. injection Hdf as <-. by repeat split.
  - split; [|done]. split; [|done].
    unfold df_empty. rewrite Hcols by done.
    destruct (records df); [done|]. by simpl.
Qed.

(** X5. The loop has no bound of its own: against an endpoint that
    answers every request with a non-empty token, the routine never
    returns nor raises, and with fuel for [fuel] requests it makes all
    of them. *)
Theorem endless_paging fuel owner key w service w2 :
  connects delegated_credentials build print key owner w service w2 ->
  (forall token w0,
     exists results w1,
       execute_list service (list_request owner token) w0 = (inr results, w1)
       /\ truthy (resp_nextPageToken results) = true) ->
  exists s',
    routine fuel owner key (start w) = (OutOfFuel, s')
    /\ length (history s') = fuel.
Proof.
  intros (creds & w0 & w1 & Hcreds & Hbuild & Hprint) Hmore.
  destruct (paginate_endless execute_list service owner Hmore fuel [] None
              (start w2)) as (s' & Hpaged & Hlen).
  exists s'. split; [|by rewrite Hlen].
  unfold user_shared_gems, bind, extern, lift, ret. simpl.
  rewrite Hcreds. simpl. rewrite Hbuild. simpl. rewrite Hprint. simpl.
  unfold start in Hpaged. by rewrite Hpaged.
Qed.

(** X6. The requests of a run differ in nothing but the page token: each
    asks for the items of all drives, shared drives included, and carries
    the same query, page size and field mask as every other. *)
Theorem requests_differ_in_token_only fuel owner key w r s' i req out :
  routine fuel owner key (start w) = (r, s') ->
  history s' !! i = Some (req, out) ->
  supportsAllDrives req = true
  /\ includeItemsFromAllDrives req = true
  /\ forall j req' out', history s' !! j = Some (req', out') ->
       q req' = q req /\ pageSize req' = pageSize req
       /\ fields req' = fields req
       /\ supportsAllDrives req' = supportsAllDrives req
       /\ includeItemsFromAllDrives req' = includeItemsFromAllDrives req.
Proof.
  intros Hrun Hi.
  destruct (run_requests _ _ _ _ _ _ _ _ _ _ _ _ _ _ _ Hrun Hi) as [t ->].
  repeat split; try done;
    destruct (run_requests _ _ _ _ _ _ _ _ _ _ _ _ _ _ _ Hrun H) as [t' ->]; done.
Qed.

(** X9. A file without [permissions], or with none in the list, has the
    empty text in both the Editor(s) and the Viewer(s) cell. *)
Theorem unshared_file_has_blank_lists fuel owner key w df s' i file :
  routine fuel owner key (start w) = (Return df, s') ->
  files_received (history s') !! i = Some file ->
  file_permissions file = None \/ file_permissions file = Some [] ->
  df_cell df i "Editor(s)" = Some (Str "")
  /\ df_cell df i "Viewer(s)" = Some (Str "").
Proof.
  intros Hrun Hfile Hnone.
  destruct (returned_cells _ _ _ _ _ _ _ _ _ _ _ _ _ _ Hrun Hfile)
    as (o & c5 & c6 & c7 & _ & Hcols & Hi & _).
  unfold df_cell. rewrite Hcols, Hi. simpl.
  by destruct Hnone as [-> | ->].
Qed.

(** X11. For a file without [createdTime] the Created cell is the empty
    text, and likewise Modified for a file without [modifiedTime],
    provided the parse gives no timestamp for a missing value. *)
Theorem missing_times_are_blank fuel owner key w df s' i file :
  (forall series j t, series !! j = Some NA ->
     to_datetime series !! j <> Some (Some t)) ->
  routine fuel owner key (start w) = (Return df, s') ->
  files_received (history s') !! i = Some file ->
  (file_createdTime file = None -> df_cell df i "Created" = Some (Str ""))
  /\ (file_modifiedTime file = None -> df_cell df i "Modified" = Some (Str "")).
Proof.
  intros Hmissing Hrun Hfile.
  destruct (returned_cells _ _ _ _ _ _ _ _ _ _ _ _ _ _ Hrun Hfile)
    as (o & c5 & c6 & c7 & _ & Hcols & Hi & H5 & H6 & _).
  assert (forall c, c !! i = Some NA -> stamp (to_datetime c) i = "") as Hblank.
  { intros c Hc. unfold stamp.
    destruct (to_datetime c !! i) as [[t|]|] eqn:Ht; [|done..].
    by destruct (Hmissing _ _ t Hc). }
  unfold df_cell. rewrite Hcols, Hi. simpl.
  split; intros Hnone; rewrite Hnone in *; simpl in *; by rewrite Hblank.
Qed.


(** X10. The Owner cell reads the e-mail address of the first owner and
    of no other; a file without [owners], or whose first owner has no
    address, is not an error: its Owner cell reads [Unknown]. *)
Theorem owner_cell_is_first_owner fuel owner key w df s' i file :
  routine fuel owner key (start w) = (Return df, s') ->
  files_received (history s') !! i = Some file ->
  (file_owners file = None -> df_cell df i "Owner" = Some (Str "Unknown"))
  /\ (forall first others,
        file_owners file = Some (first :: others) ->
        df_cell df i "Owner"
        = Some (Str match user_emailAddress first with
                    | Some email => email
                    | None => "Unknown"
                    end)).
Proof.
  intros Hrun Hfile.
  destruct (returned_cells _ _ _ _ _ _ _ _ _ _ _ _ _ _ Hrun Hfile)
    as (o & c5 & c6 & c7 & Ho & Hcols & Hi & _).
  unfold df_cell. rewrite Hcols, Hi. simpl. unfold owner_email in Ho.
  split.
  - intros Hnone. rewrite Hnone in Ho. by injection Ho as <-.
  - intros first others Hsome. rewrite Hsome in Ho. injection Ho as <-.
    by destruct (user_emailAddress first).
Qed.

End Beyond.

(** ** The scripted Drive, once more *)

Lemma demo_no_owner_end :
  paging_ends (Demo.scripted Demo.no_owner) tt Demo.owner 0 1
    [Demo.gem_a; Demo.gem_c].
Proof.
  eexists _, _, _. split; [|split; [|split]].
  - eapply nsteps_l; [|apply nsteps_O].
    by apply (turns_again _ _ _ [] None (start 0)
                {| resp_files := Some [Demo.gem_a];
                   resp_nextPageToken := Some "t1" |} 1).
  - reflexivity.
  - reflexivity.
  - reflexivity.
Qed.

Lemma demo_nothing_run :
  Demo.run Demo.nothing 5
  = (Return (Demo.frame Demo.nothing 5), Demo.final Demo.nothing 5).
Proof. vm_compute. reflexivity. Qed.

Lemma demo_parse_missing series j t :
  series !! j = Some NA -> Demo.to_datetime series !! j <> Some (Some t).
Proof.
  intros Hj. unfold Demo.to_datetime. rewrite lookup_map, Hj. simpl. congruence.
Qed.

Lemma failure_before_listing_witness :
  user_shared_gems Demo.no_credentials Demo.build Demo.print
    (Demo.scripted Demo.two_pages) Demo.parse_error Demo.to_datetime
    5 Demo.owner service_account_key (start 0)
  = (Raise (External "RefreshError"), start 0).
Proof.
  apply (failure_before_listing Demo.no_credentials Demo.build Demo.print
           (Demo.scripted Demo.two_pages) Demo.parse_error Demo.to_datetime
           5 Demo.owner service_account_key 0 (External "RefreshError") 0).
  left. reflexivity.
Defined.

Lemma empty_owners_raise_witness :
  exists s',
    Demo.run Demo.no_owner 5 = (Raise IndexError, s')
    /\ length (history s') = 2
    /\ files_received (history s') = [Demo.gem_a; Demo.gem_c].
Proof.
  apply (empty_owners_raise Demo.credentials Demo.build Demo.print
           (Demo.scripted Demo.no_owner) Demo.parse_error Demo.to_datetime
           5 Demo.owner service_account_key 0 tt 0 1
           [Demo.gem_a; Demo.gem_c] Demo.gem_c).
  - apply demo_connects.
  - apply demo_no_owner_end.
  - apply list_elem_of_further, list_elem_of_here.
  - reflexivity.
  - lia.
Defined.

Lemma demo_mixed_run :
  Demo.run Demo.mixed 5
  = (Raise (External "ValueError: Mixed timezones detected"),
     Demo.final Demo.mixed 5).
Proof. vm_compute. reflexivity. Qed.

Lemma failures_accounted_witness :
  let e := External "ValueError: Mixed timezones detected" in
  let h := history (Demo.final Demo.mixed 5) in
  (h = []
   /\ ((exists w',
          Demo.credentials service_account_key SCOPES Demo.owner 0 = (inl e, w'))
       \/ (exists creds w1 w',
             Demo.credentials service_account_key SCOPES Demo.owner 0
             = (inr creds, w1)
             /\ Demo.build "drive" "v3" creds w1 = (inl e, w'))
       \/ exists creds w1 service w2 w',
            Demo.credentials service_account_key SCOPES Demo.owner 0
            = (inr creds, w1)
            /\ Demo.build "drive" "v3" creds w1 = (inr service, w2)
            /\ Demo.print (querying Demo.owner) w2 = (inl e, w')))
  \/ (exists req, last h = Some (req, inl e))
  \/ (e = IndexError
      /\ all_answered h
      /\ exists file, file ∈ files_received h /\ file_owners file = Some [])
  \/ (all_answered h
      /\ Forall has_owner (files_received h)
      /\ exists column,
           column ∈ [ created_column (files_received h);
                      modified_column (files_received h);
                      opened_column (files_received h) ]
           /\ Demo.parse_error column = Some e).
Proof.
  apply (failures_accounted Demo.credentials Demo.build Demo.print
           (Demo.scripted Demo.mixed) Demo.parse_error Demo.to_datetime
           5 Demo.owner service_account_key 0).
  apply demo_mixed_run.
Defined.

Lemma empty_frame_iff_no_files_witness :
  (df_empty (Demo.frame Demo.nothing 5) = true
   <-> files_received (history (Demo.final Demo.nothing 5)) = [])
  /\ (files_received (history (Demo.final Demo.nothing 5)) = [] ->
      Demo.frame Demo.nothing 5 = {| columns := []; records := [] |}).
Proof.
  apply (empty_frame_iff_no_files Demo.credentials Demo.build Demo.print
           (Demo.scripted Demo.nothing) Demo.parse_error Demo.to_datetime
           5 Demo.owner service_account_key 0).
  apply demo_nothing_run.
Defined.

Lemma endless_paging_witness :
  exists s',
    user_shared_gems Demo.credentials Demo.build Demo.print Demo.endless
      Demo.parse_error Demo.to_datetime
      7 Demo.owner service_account_key (start 0)
    = (OutOfFuel, s')
    /\ length (history s') = 7.
Proof.
  apply (endless_paging Demo.credentials Demo.build Demo.print Demo.endless
           Demo.parse_error Demo.to_datetime 7 Demo.owner service_account_key 0 tt 0).
  - apply demo_connects.
  - intros token w0. eexists _, _. split; reflexivity.
Defined.

Lemma requests_differ_in_token_only_witness :
  supportsAllDrives (list_request Demo.owner (Some "t1")) = true
  /\ includeItemsFromAllDrives (list_request Demo.owner (Some "t1")) = true
  /\ forall j req' out',
       history (Demo.final Demo.two_pages 5) !! j = Some (req', out') ->
       q req' = q (list_request Demo.owner (Some "t1"))
       /\ pageSize req' = pageSize (list_request Demo.owner (Some "t1"))
       /\ fields req' = fields (list_request Demo.owner (Some "t1"))
       /\ supportsAllDrives req'
          = supportsAllDrives (list_request Demo.owner (Some "t1"))
       /\ includeItemsFromAllDrives req'
          = includeItemsFromAllDrives (list_request Demo.owner (Some "t1")).
Proof.
  apply (requests_differ_in_token_only Demo.credentials Demo.build Demo.print
           (Demo.scripted Demo.two_pages) Demo.parse_error Demo.to_datetime
           5 Demo.owner service_account_key 0
           (Return (Demo.frame Demo.two_pages 5)) (Demo.final Demo.two_pages 5)
           1 (list_request Demo.owner (Some "t1")) (Demo.page [Demo.gem_b] None)).
  - apply demo_two_pages_run.
  - vm_compute. reflexivity.
Defined.

Lemma owner_never_listed_witness :
  exists o editors viewers,
    dict_get "Owner" Demo.row_a = Some (Str o)
    /\ dict_get "Editor(s)" Demo.row_a = Some (Str (join ", " editors))
    /\ dict_get "Viewer(s)" Demo.row_a = Some (Str (join ", " viewers))
    /\ (o ∉ editors) /\ (o ∉ viewers)
    /\ (forall name, name ∈ editors ++ viewers ->
          exists perm, perm ∈ default [] (file_permissions Demo.gem_a)
                       /\ name = identity perm)
    /\ length editors + length viewers
       <= length (default [] (file_permissions Demo.gem_a)).
Proof.
  apply (owner_never_listed Demo.gem_a Demo.row_a).
  vm_compute. reflexivity.
Defined.

Lemma unshared_file_has_blank_lists_witness :
  df_cell (Demo.frame Demo.two_pages 5) 1 "Editor(s)" = Some (Str "")
  /\ df_cell (Demo.frame Demo.two_pages 5) 1 "Viewer(s)" = Some (Str "").
Proof.
  apply (unshared_file_has_blank_lists Demo.credentials Demo.build Demo.print
           (Demo.scripted Demo.two_pages) Demo.parse_error Demo.to_datetime
           5 Demo.owner service_account_key 0
           (Demo.frame Demo.two_pages 5) (Demo.final Demo.two_pages 5)
           1 Demo.gem_b).
  - apply demo_two_pages_run.
  - vm_compute. reflexivity.
  - left. reflexivity.
Defined.

Lemma missing_times_are_blank_witness :
  (file_createdTime Demo.gem_b = None ->
   df_cell (Demo.frame Demo.two_pages 5) 1 "Created" = Some (Str ""))
  /\ (file_modifiedTime Demo.gem_b = None ->
      df_cell (Demo.frame Demo.two_pages 5) 1 "Modified" = Some (Str "")).
Proof.
  apply (missing_times_are_blank Demo.credentials Demo.build Demo.print
           (Demo.scripted Demo.two_pages) Demo.parse_error Demo.to_datetime
           5 Demo.owner service_account_key 0
           (Demo.frame Demo.two_pages 5) (Demo.final Demo.two_pages 5)
           1 Demo.gem_b).
  - apply demo_parse_missing.
  - apply demo_two_pages_run.
  - vm_compute. reflexivity.
Defined.


Lemma owner_cell_is_first_owner_witness :
  file_owners Demo.gem_b = None
  /\ df_cell (Demo.frame Demo.two_pages 5) 1 "Owner" = Some (Str "Unknown").
Proof.
  split; [reflexivity|].
  destruct (owner_cell_is_first_owner Demo.credentials Demo.build Demo.print
              (Demo.scripted Demo.two_pages) Demo.parse_error Demo.to_datetime
              5 Demo.owner service_account_key 0
              (Demo.frame Demo.two_pages 5) (Demo.final Demo.two_pages 5)
              1 Demo.gem_b) as [Hunknown _].
  - apply demo_two_pages_run.
  - vm_compute. reflexivity.
  - by apply Hunknown.
Defined.
